(** * photoshop_analytics: the PSD analysis page ([src/app/page.tsx])

    A shallow embedding of the page component [PsdAnalyzer]: the recursive
    layer-tree walk [collectLayerInfo], the analysis pipeline [analyzePsd]
    with its single [try]/[catch], and the JSX that renders the two state
    slots.  Objects that the page shares by reference (the [guides] and
    [slices] arrays) live in an explicit store of array objects. *)

From stdpp Require Import gmap strings list pretty.
From Stdlib Require Import ZArith Lia.

Set Warnings "-register-all".

Open Scope string_scope.
Open Scope Z_scope.
Open Scope list_scope.

(** ** JavaScript values used by the page *)

(** Numbers of the document (pixel sizes, offsets, opacity) are integers;
    the page never computes with them, it only copies and prints them. *)
Definition number := Z.

(** Identity of an array object. *)
Definition loc := positive.

Inductive Orientation := horizontal | vertical.

Record Guide := { position : number; orientation : Orientation }.

Record Bounds := { b_top : number; b_left : number; b_bottom : number; b_right : number }.

Record Slice := { s_name : string; bounds : Bounds }.

(** Elements of the arrays found under [guides] and [slices]. *)
Inductive item :=
| GuideItem (g : Guide)
| SliceItem (s : Slice).

(** The store of array objects: a [guides] or [slices] property holds a
    reference into it, not the elements. *)
Abbreviation arrays := (gmap loc (list item)).

(** Exceptions: the [TypeError] of a property read on [null]/[undefined],
    the [RangeError] of a call made when the call stack is full, and
    whatever an external call (file read, parser, canvas) throws. *)
Inductive exn :=
| TypeError (msg : string)
| RangeError (msg : string)
| ExternalError (msg : string).

Inductive result (A : Type) :=
| Ok (a : A)
| Throw (e : exn).
Arguments Ok {A} a.
Arguments Throw {A} e.

Definition bind {A B} (r : result A) (k : A -> result B) : result B :=
  match r with
  | Ok a => k a
  | Throw e => Throw e
  end.

(** ** interface PsdLayerNode *)

Module PsdLayerNode.
(** The properties of a node object other than [children]. *)
Record props := Props {
  type : string;
  name : string;
  width : option number;
  height : option number;
  opacity : option number;
  visible : option bool;
  open : option bool;
  top : option number;
  left : option number;
  blendMode : option string;
  clipped : option bool;
  text : option string;
  guides : option loc;
  slices : option loc
}.
End PsdLayerNode.

(** A value found where a node is expected: an object with the properties
    above and an optional [children] array, or [null]/[undefined].  The
    discriminant is a string: the union ['Layer' | 'Group'] is a
    compile-time annotation only. *)
Inductive node :=
| Node (p : PsdLayerNode.props) (children : option (list node))
| Nullish.

(** ** PsdFileInfo['layers'][number] *)

Module Layer.
Record t := Make {
  name : string;
  width : option number;
  height : option number;
  opacity : option number;
  visible : option bool;
  type : string;
  open : option bool;
  top : option number;
  left : option number;
  blendMode : option string;
  clipped : option bool;
  text : option string;
  guides : option loc;
  slices : option loc
}.
End Layer.

(** ** interface PsdFileInfo *)

Module PsdFileInfo.
Record t := Make {
  width : number;
  height : number;
  colorMode : string;
  layers : list Layer.t
}.
End PsdFileInfo.

(** ** collectLayerInfo *)

(** The object literal pushed for a node of type ['Layer']
    (page.tsx lines 107-121). *)
Definition layerRecord (p : PsdLayerNode.props) : Layer.t :=
  {| Layer.name := PsdLayerNode.name p;
     Layer.width := PsdLayerNode.width p;
     Layer.height := PsdLayerNode.height p;
     Layer.opacity := PsdLayerNode.opacity p;
     Layer.visible := PsdLayerNode.visible p;
     Layer.type := PsdLayerNode.type p;
     Layer.open := None;
     Layer.top := PsdLayerNode.top p;
     Layer.left := PsdLayerNode.left p;
     Layer.blendMode := PsdLayerNode.blendMode p;
     Layer.clipped := PsdLayerNode.clipped p;
     Layer.text := PsdLayerNode.text p;
     Layer.guides := PsdLayerNode.guides p;
     Layer.slices := PsdLayerNode.slices p |}.

(** The object literal pushed for a node of type ['Group']
    (page.tsx lines 123-129): five properties, the others are absent. *)
Definition groupRecord (p : PsdLayerNode.props) : Layer.t :=
  {| Layer.name := PsdLayerNode.name p;
     Layer.width := None;
     Layer.height := None;
     Layer.opacity := None;
     Layer.visible := None;
     Layer.type := PsdLayerNode.type p;
     Layer.open := PsdLayerNode.open p;
     Layer.top := None;
     Layer.left := None;
     Layer.blendMode := None;
     Layer.clipped := None;
     Layer.text := None;
     Layer.guides := PsdLayerNode.guides p;
     Layer.slices := PsdLayerNode.slices p |}.

(** [xs.forEach(f)] for a callback that updates a state and may throw. *)
Fixpoint forEach {A S : Type} (f : A -> S -> result S) (xs : list A) (s : S)
  : result S :=
  match xs with
  | [] => Ok s
  | x :: rest => bind (f x s) (forEach f rest)
  end.

(** The exception of a call for which the call stack has no room left. *)
Definition stackExhausted : exn := RangeError "Maximum call stack size exceeded".

(** [collectLayerInfo(node)], with [info.layers] passed as state.
    [depth] is the number of nested calls of [collectLayerInfo] the call
    stack has room for below this one: the call made for a child at line
    130 throws a [RangeError] when there is room for none. *)
Fixpoint collectLayerInfo (depth : nat) (n : node) (ls : list Layer.t) {struct depth}
  : result (list Layer.t) :=
  match n with
  | Nullish => Throw (TypeError "Cannot read properties of undefined (reading 'type')")
  | Node p children =>
      if String.eqb (PsdLayerNode.type p) "Layer" then
        Ok (ls ++ [layerRecord p])
      else if String.eqb (PsdLayerNode.type p) "Group" then
        let ls := ls ++ [groupRecord p] in
        match children with
        | None => Ok ls
        | Some cs =>
            forEach (fun child ls =>
                       match depth with
                       | O => Throw stackExhausted
                       | S below => collectLayerInfo below child ls
                       end) cs ls
        end
      else Ok ls
  end.

(** The callback of line 130, [(child) => collectLayerInfo(child)], run
    where the stack has room for [depth] nested calls. *)
Definition callChild (depth : nat) (child : node) (ls : list Layer.t)
  : result (list Layer.t) :=
  match depth with
  | O => Throw stackExhausted
  | S below => collectLayerInfo below child ls
  end.

(** [psdFile.children.forEach(collectLayerInfo)] on a fresh [info.layers],
    each root call having room for [depth] nested calls. *)
Definition flatten (depth : nat) (roots : list node) : result (list Layer.t) :=
  forEach (collectLayerInfo depth) roots [].

(** ** The tree as the specification reads it *)

Definition isLayer (p : PsdLayerNode.props) : bool :=
  String.eqb (PsdLayerNode.type p) "Layer".

Definition isGroup (p : PsdLayerNode.props) : bool :=
  String.eqb (PsdLayerNode.type p) "Group".

Definition childrenOf (children : option (list node)) : list node :=
  match children with
  | Some cs => cs
  | None => []
  end.

(** Every node object of a tree, parent before children, children in
    their own order, a node's descendants before its later siblings. *)
Fixpoint preorder (n : node) : list PsdLayerNode.props :=
  match n with
  | Nullish => []
  | Node p children =>
      p :: match children with
           | Some cs => flat_map preorder cs
           | None => []
           end
  end.

Definition preorderList (roots : list node) : list PsdLayerNode.props :=
  flat_map preorder roots.

(** Every node of the tree is an object whose discriminant is ['Layer']
    or ['Group']. *)
Fixpoint recognised (n : node) : bool :=
  match n with
  | Nullish => false
  | Node p children =>
      (isLayer p || isGroup p)
      && match children with
         | Some cs => forallb recognised cs
         | None => true
         end
  end.

(** No node of type ['Layer'] has a child: layers are the leaves. *)
Fixpoint leafLayers (n : node) : bool :=
  match n with
  | Nullish => true
  | Node p children =>
      (if isLayer p then
         match childrenOf children with [] => true | _ :: _ => false end
       else true)
      && match children with
         | Some cs => forallb leafLayers cs
         | None => true
         end
  end.

(** How many calls the walk nests below the call made for a node: one
    more than for the deepest child of a group, none for a node whose
    children the walk does not enter. *)
Fixpoint nesting (n : node) : nat :=
  match n with
  | Nullish => O
  | Node p children =>
      if isLayer p then O
      else if isGroup p then
        match children with
        | Some cs =>
            (fix deepest (cs : list node) : nat :=
               match cs with
               | [] => O
               | c :: rest => Nat.max (S (nesting c)) (deepest rest)
               end) cs
        | None => O
        end
      else O
  end.

(** The deepest nesting among a list of siblings, counted from their
    parent. *)
Fixpoint deepest (cs : list node) : nat :=
  match cs with
  | [] => O
  | c :: rest => Nat.max (S (nesting c)) (deepest rest)
  end.

(** Every root fits a stack with room for [depth] nested calls. *)
Definition withinDepth (depth : nat) (roots : list node) : bool :=
  forallb (fun n => Nat.leb (nesting n) depth) roots.

(** The display record the specification assigns to a node: a leaf record
    for a layer, a group record otherwise. *)
Definition displayRecord (p : PsdLayerNode.props) : Layer.t :=
  if isLayer p then layerRecord p else groupRecord p.

(** ** Reading and mutating the shared arrays *)

(** The elements currently held by the array a property refers to;
    [None] when the property is undefined. *)
Definition deref (a : arrays) (ref : option loc) : option (list item) :=
  match ref with
  | Some l => Some (default [] (a !! l))
  | None => None
  end.

(** [array.push(x)] through a reference: the array object changes in
    place, every holder of the reference sees it. *)
Definition push (a : arrays) (l : loc) (x : item) : arrays :=
  <[l := default [] (a !! l) ++ [x]]> a.

(** What can be seen of the source tree: each node's properties together
    with the contents of its guides and slices arrays. *)
Definition observeTree (a : arrays) (roots : list node)
  : list (PsdLayerNode.props * option (list item) * option (list item)) :=
  map (fun p => (p, deref a (PsdLayerNode.guides p), deref a (PsdLayerNode.slices p)))
      (preorderList roots).

(** What can be seen of the display list. *)
Definition observeLayers (a : arrays) (ls : list Layer.t)
  : list (Layer.t * option (list item) * option (list item)) :=
  map (fun r => (r, deref a (Layer.guides r), deref a (Layer.slices r))) ls.

(** ** JSX expression children *)

Inductive jsval :=
| VUndefined
| VBool (b : bool)
| VNumber (n : number)
| VString (s : string).

Definition truthy (v : jsval) : bool :=
  match v with
  | VUndefined => false
  | VBool b => b
  | VNumber n => negb (n =? 0)
  | VString s => negb (String.eqb s "")
  end.

(** [a && b] and [a || b]. *)
Definition jsAnd (a b : jsval) : jsval := if truthy a then b else a.
Definition jsOr (a b : jsval) : jsval := if truthy a then a else b.

Definition ofNumber (o : option number) : jsval :=
  match o with Some n => VNumber n | None => VUndefined end.

Definition ofString (o : option string) : jsval :=
  match o with Some s => VString s | None => VUndefined end.

Definition ofBool (o : option bool) : jsval :=
  match o with Some b => VBool b | None => VUndefined end.

(** The text React puts in the DOM for an expression child: strings and
    numbers are printed, booleans and [undefined] render nothing. *)
Definition childText (v : jsval) : string :=
  match v with
  | VString s => s
  | VNumber n => pretty n
  | VBool _ | VUndefined => ""
  end.

(** [`${v}`] for the values the page interpolates. *)
Definition interpolate (v : jsval) : string :=
  match v with
  | VString s => s
  | VNumber n => pretty n
  | VBool true => "true"
  | VBool false => "false"
  | VUndefined => "undefined"
  end.

(** [arr.length] of the array object at [l]. *)
Definition arrayLength (a : arrays) (l : loc) : number :=
  Z.of_nat (length (default [] (a !! l))).

(** [{layer.text && `, テキスト: ${layer.text}`}] (line 191). *)
Definition textChild (layer : Layer.t) : jsval :=
  jsAnd (ofString (Layer.text layer))
        (VString (", テキスト: " +:+ interpolate (ofString (Layer.text layer)))).

(** [{layer.guides && layer.guides.length > 0 && `, ガイド数: ${layer.guides.length}`}]
    (line 192); an array object is truthy whatever it holds. *)
Definition guidesChild (a : arrays) (layer : Layer.t) : jsval :=
  match Layer.guides layer with
  | None => VUndefined
  | Some l =>
      jsAnd (VBool (0 <? arrayLength a l))
            (VString (", ガイド数: " +:+ interpolate (VNumber (arrayLength a l))))
  end.

(** [{layer.slices && layer.slices.length > 0 && `, スライス数: ${layer.slices.length}`}]
    (line 193). *)
Definition slicesChild (a : arrays) (layer : Layer.t) : jsval :=
  match Layer.slices layer with
  | None => VUndefined
  | Some l =>
      jsAnd (VBool (0 <? arrayLength a l))
            (VString (", スライス数: " +:+ interpolate (VNumber (arrayLength a l))))
  end.

(** The text of the [<span>] of a leaf record up to the clipping label
    (lines 184-190). *)
Definition spanHead (layer : Layer.t) : string :=
  " (" +:+ childText (ofNumber (Layer.width layer)) +:+ "x"
  +:+ childText (ofNumber (Layer.height layer))
  +:+ ", 位置: X:" +:+ childText (ofNumber (Layer.left layer))
  +:+ "px Y:" +:+ childText (ofNumber (Layer.top layer))
  +:+ "px, 不透明度: " +:+ childText (ofNumber (Layer.opacity layer))
  +:+ "%, 表示: "
  +:+ (if truthy (ofBool (Layer.visible layer)) then "表示" else "非表示")
  +:+ ", ブレンドモード: " +:+ childText (ofString (Layer.blendMode layer))
  +:+ ", クリッピング: "
  +:+ (if truthy (ofBool (Layer.clipped layer)) then "あり" else "なし").

(** The three conditional children at the end of the [<span>]. *)
Definition spanSuffixes (a : arrays) (layer : Layer.t) : string :=
  childText (textChild layer) +:+ childText (guidesChild a layer)
  +:+ childText (slicesChild a layer).

(** The text of the [<p>] rendered for one display record
    (lines 180-196). *)
Definition layerText (a : arrays) (layer : Layer.t) : string :=
  (if String.eqb (Layer.type layer) "Group" then "📁" else "🖼️")
  +:+ " " +:+ Layer.name layer
  +:+ (if String.eqb (Layer.type layer) "Layer"
       then spanHead layer +:+ spanSuffixes a layer +:+ ")"
       else "").

(** ** The external collaborators *)

Definition Uint8ClampedArray := list Byte.byte.

(** The document object returned by [Psd.parse]: [colorMode] is the string
    [psdFile.colorMode.toString()] yields, [composite] the outcome of
    awaiting [psdFile.composite()]. *)
Module Psd.
Record t := Make {
  width : number;
  height : number;
  colorMode : string;
  composite : result Uint8ClampedArray;
  children : list node
}.
End Psd.

(** The selected file: [arrayBuffer] is the outcome of awaiting
    [file.arrayBuffer()]. *)
Record File := { arrayBuffer : result (list Byte.byte) }.

Module ImageData.
Record t := Make {
  data : Uint8ClampedArray;
  width : number;
  height : number
}.
End ImageData.

(** An off-screen canvas: its size and the image data put on it, each
    with the offset it was put at. *)
Module Canvas.
Record t := Make {
  width : number;
  height : number;
  bitmap : list (ImageData.t * number * number)
}.
End Canvas.

(** What the browser and the parsing library decide. *)
Record Host := {
  (** how many nested calls of [collectLayerInfo] the call stack has
      room for below a call made from the handler *)
  callDepth : nat;
  (** [Psd.parse(arrayBuffer)] *)
  parse : list Byte.byte -> result Psd.t;
  (** whether [canvas.getContext('2d')] returns a context ([true]) or
      [null] ([false]) *)
  getContext2d : bool;
  (** the exception [new ImageData(data, sw, sh)] throws, if any *)
  imageDataError : Uint8ClampedArray -> number -> number -> option exn;
  (** [canvas.toDataURL()] *)
  toDataURL : Canvas.t -> string
}.

(** [document.createElement('canvas')]: 300 by 150, blank. *)
Definition createCanvas : Canvas.t :=
  {| Canvas.width := 300; Canvas.height := 150; Canvas.bitmap := [] |}.

(** [canvas.width = w]; setting a dimension clears the bitmap. *)
Definition setWidth (c : Canvas.t) (w : number) : Canvas.t :=
  {| Canvas.width := w; Canvas.height := Canvas.height c; Canvas.bitmap := [] |}.

(** [canvas.height = h] *)
Definition setHeight (c : Canvas.t) (h : number) : Canvas.t :=
  {| Canvas.width := Canvas.width c; Canvas.height := h; Canvas.bitmap := [] |}.

(** [new ImageData(data, sw, sh)] *)
Definition newImageData (host : Host) (data : Uint8ClampedArray) (sw sh : number)
  : result ImageData.t :=
  match imageDataError host data sw sh with
  | Some e => Throw e
  | None => Ok {| ImageData.data := data; ImageData.width := sw; ImageData.height := sh |}
  end.

(** [ctx.putImageData(imageData, dx, dy)] *)
Definition putImageData (c : Canvas.t) (img : ImageData.t) (dx dy : number) : Canvas.t :=
  {| Canvas.width := Canvas.width c; Canvas.height := Canvas.height c;
     Canvas.bitmap := Canvas.bitmap c ++ [(img, dx, dy)] |}.

(** ** Component state and the analysis pipeline *)

(** The two [useState] slots. *)
Record State := {
  psdInfo : option PsdFileInfo.t;
  imagePreview : string
}.

Definition initialState : State := {| psdInfo := None; imagePreview := "" |}.

(** What the user and the developer console get to see. *)
Record Log := {
  console : list (string * exn);
  alerts : list string
}.

Definition emptyLog : Log := {| console := []; alerts := [] |}.

(** Statements of the [try] block: they read and write the state slots
    and may throw. *)
Definition M (A : Type) : Type := State -> State * result A.

Definition ret {A} (a : A) : M A := fun st => (st, Ok a).

Definition bindM {A B} (m : M A) (k : A -> M B) : M B :=
  fun st =>
    match m st with
    | (st', Ok a) => k a st'
    | (st', Throw e) => (st', Throw e)
    end.

Definition lift {A} (r : result A) : M A := fun st => (st, r).

Definition setImagePreview (url : string) : M unit :=
  fun st => ({| psdInfo := psdInfo st; imagePreview := url |}, Ok tt).

Definition setPsdInfo (info : PsdFileInfo.t) : M unit :=
  fun st => ({| psdInfo := Some info; imagePreview := imagePreview st |}, Ok tt).

Declare Scope pipeline_scope.
Delimit Scope pipeline_scope with pipeline.
Notation "x <- m ;; k" := (bindM m (fun x => k))
  (at level 100, m at next level, right associativity) : pipeline_scope.
Notation "m ;;; k" := (bindM m (fun _ => k))
  (at level 100, right associativity) : pipeline_scope.

(** Lines 82-93: the canvas is created and sized, the composite is
    awaited, wrapped in an [ImageData] and put at the origin, when there
    is a context to put it with ([ctx?.putImageData]). *)
Definition drawComposite (host : Host) (psdFile : Psd.t) : result Canvas.t :=
  let canvas := createCanvas in
  let ctx := getContext2d host in
  let canvas := setWidth canvas (Psd.width psdFile) in
  let canvas := setHeight canvas (Psd.height psdFile) in
  bind (Psd.composite psdFile) (fun compositeBuffer =>
  bind (newImageData host compositeBuffer (Psd.width psdFile) (Psd.height psdFile))
       (fun imageData =>
  Ok (if ctx then putImageData canvas imageData 0 0 else canvas))).

(** Lines 97-134: the summary object and the walk that fills its
    [layers]. *)
Definition collectInfo (host : Host) (psdFile : Psd.t) : result PsdFileInfo.t :=
  bind (forEach (collectLayerInfo (callDepth host)) (Psd.children psdFile) [])
       (fun layers =>
  Ok {| PsdFileInfo.width := Psd.width psdFile;
        PsdFileInfo.height := Psd.height psdFile;
        PsdFileInfo.colorMode := Psd.colorMode psdFile;
        PsdFileInfo.layers := layers |}).

(** The body of the [try] (lines 78-135). *)
Definition tryBlock (host : Host) (file : File) : M unit :=
  (arrayBuffer <- lift (arrayBuffer file) ;;
   psdFile <- lift (parse host arrayBuffer) ;;
   canvas <- lift (drawComposite host psdFile) ;;
   setImagePreview (toDataURL host canvas) ;;;
   info <- lift (collectInfo host psdFile) ;;
   setPsdInfo info)%pipeline.

Definition failureMessage : string := "PSDファイルの解析に失敗しました".

(** The [catch] (lines 137-140): one console entry, one alert. *)
Definition catch (e : exn) (log : Log) : Log :=
  {| console := console log ++ [("PSDファイルの解析中にエラーが発生しました:", e)];
     alerts := alerts log ++ [failureMessage] |}.

(** [analyzePsd(event)], where [file] is [event.target.files?.[0]]. *)
Definition analyzePsd (host : Host) (file : option File) (st : State) (log : Log)
  : State * Log :=
  match file with
  | None => (st, log)
  | Some f =>
      match tryBlock host f st with
      | (st', Ok _) => (st', log)
      | (st', Throw e) => (st', catch e log)
      end
  end.

(** Whether the [try] block threw. *)
Definition runThrows (host : Host) (f : File) (st : State) : bool :=
  match tryBlock host f st with
  | (_, Throw _) => true
  | (_, Ok _) => false
  end.

(** The run throws during the byte read, the parse or the composite. *)
Definition throwsEarly (host : Host) (f : File) : bool :=
  match arrayBuffer f with
  | Throw _ => true
  | Ok bytes =>
      match parse host bytes with
      | Throw _ => true
      | Ok psdFile =>
          match Psd.composite psdFile with
          | Throw _ => true
          | Ok _ => false
          end
      end
  end.

(** ** The rendered page *)

Module Image.
Record t := Make {
  src : string;
  alt : string;
  width : number;
  height : number
}.
End Image.

Record InfoPanel := {
  summary : list string;
  layerLines : list string
}.

Record View := {
  preview : option Image.t;
  infoPanel : option InfoPanel
}.

(** [v || 0] for a number that may be undefined. *)
Definition orZero (o : option number) : number :=
  match jsOr (ofNumber o) (VNumber 0) with
  | VNumber n => n
  | _ => 0
  end.

(** The JSX returned by the component (lines 143-204). *)
Definition render (a : arrays) (st : State) : View :=
  {| preview :=
       if truthy (VString (imagePreview st)) then
         Some {| Image.src := imagePreview st;
                 Image.alt := "PSD preview";
                 Image.width := orZero (PsdFileInfo.width <$> psdInfo st);
                 Image.height := orZero (PsdFileInfo.height <$> psdInfo st) |}
       else None;
     infoPanel :=
       match psdInfo st with
       | Some info =>
           Some {| summary :=
                     [ "幅: " +:+ pretty (PsdFileInfo.width info) +:+ "px";
                       "高さ: " +:+ pretty (PsdFileInfo.height info) +:+ "px";
                       "カラーモード: " +:+ PsdFileInfo.colorMode info ];
                   layerLines := map (layerText a) (PsdFileInfo.layers info) |}
       | None => None
       end |}.

(** ** Invariants of the walk *)

(** What a call of the walk does to the records collected so far. *)
Definition walker : Type := list Layer.t -> result (list Layer.t).

(** A walker that treats the records already collected as a prefix it
    never looks at. *)
Definition appends (w : walker) : Prop :=
  forall ls, w ls = bind (w []) (fun r => Ok (ls ++ r)).

(** On a tree of layers and groups whose layers are leaves, a walker that
    returns has added the display records of the nodes in pre-order. *)
Definition flattensInOrder (n : node) (w : walker) : Prop :=
  recognised n = true -> leafLayers n = true ->
  forall ls ls', w ls = Ok ls' -> ls' = ls ++ map displayRecord (preorder n).

(** Every record a walker adds is the display record of a node of the
    tree. *)
Definition recordsFromNodes (n : node) (w : walker) : Prop :=
  forall recs, w [] = Ok recs ->
  forall r, In r recs -> exists p, In p (preorder n) /\ r = displayRecord p.

(** ** The conditional suffixes as the specification reads them *)

(** The text suffix: shown when the record has a non-empty text, left
    out otherwise. *)
Definition textSuffix (layer : Layer.t) : string :=
  match Layer.text layer with
  | Some ((String _ _) as t) => ", テキスト: " +:+ t
  | Some "" | None => ""
  end.

(** A count suffix: shown, with the number of elements, when the list
    exists and holds at least one element, left out otherwise. *)
Definition countSuffix (label : string) (elements : option (list item)) : string :=
  match elements with
  | Some ((_ :: _) as xs) => label +:+ pretty (Z.of_nat (length xs))
  | Some [] | None => ""
  end.

(** ** Sample documents *)

Definition leaf (name : string) (w h : number) : PsdLayerNode.props :=
  {| PsdLayerNode.type := "Layer"; PsdLayerNode.name := name;
     PsdLayerNode.width := Some w; PsdLayerNode.height := Some h;
     PsdLayerNode.opacity := Some 255; PsdLayerNode.visible := Some true;
     PsdLayerNode.open := None;
     PsdLayerNode.top := Some 10; PsdLayerNode.left := Some (-4);
     PsdLayerNode.blendMode := Some "norm"; PsdLayerNode.clipped := Some false;
     PsdLayerNode.text := None;
     PsdLayerNode.guides := None; PsdLayerNode.slices := None |}.

Definition group (name : string) : PsdLayerNode.props :=
  {| PsdLayerNode.type := "Group"; PsdLayerNode.name := name;
     PsdLayerNode.width := Some 640; PsdLayerNode.height := Some 480;
     PsdLayerNode.opacity := Some 255; PsdLayerNode.visible := Some true;
     PsdLayerNode.open := Some true;
     PsdLayerNode.top := Some 0; PsdLayerNode.left := Some 0;
     PsdLayerNode.blendMode := Some "pass"; PsdLayerNode.clipped := Some false;
     PsdLayerNode.text := Some "caption";
     PsdLayerNode.guides := None; PsdLayerNode.slices := None |}.

(** A node whose discriminant the walk does not know. *)
Definition artboard (name : string) : PsdLayerNode.props :=
  {| PsdLayerNode.type := "Artboard"; PsdLayerNode.name := name;
     PsdLayerNode.width := Some 640; PsdLayerNode.height := Some 480;
     PsdLayerNode.opacity := None; PsdLayerNode.visible := None;
     PsdLayerNode.open := None;
     PsdLayerNode.top := None; PsdLayerNode.left := None;
     PsdLayerNode.blendMode := None; PsdLayerNode.clipped := None;
     PsdLayerNode.text := None;
     PsdLayerNode.guides := None; PsdLayerNode.slices := None |}.

(** One group holding two leaves. *)
Definition groupOfTwo : list node :=
  [Node (group "g") (Some [Node (leaf "a" 10 20) None; Node (leaf "b" 30 40) None])].

(** A group in a group, holding one leaf. *)
Definition nestedGroups : list node :=
  [Node (group "outer")
        (Some [Node (group "inner") (Some [Node (leaf "a" 10 20) None])])].

(** A node of type ['Layer'] that carries a [children] array, as the
    interface [PsdLayerNode] allows. *)
Definition layerWithChild : list node :=
  [Node (leaf "a" 10 20) (Some [Node (leaf "b" 30 40) None])].

(** A leaf below [k] nested groups. *)
Fixpoint deepGroups (k : nat) : node :=
  match k with
  | O => Node (leaf "bottom" 1 1) None
  | S k' => Node (group "nested") (Some [deepGroups k'])
  end.

(** An unknown node holding a leaf, between two leaves. *)
Definition aroundArtboard : list node :=
  [Node (leaf "a" 10 20) None;
   Node (artboard "board") (Some [Node (leaf "hidden" 1 1) None]);
   Node (leaf "b" 30 40) None].

(** A store with one array of two guides and one empty array. *)
Definition sampleArrays : arrays :=
  {[ 1%positive := [GuideItem {| position := 100; orientation := horizontal |};
                    GuideItem {| position := 250; orientation := vertical |}];
     2%positive := [] ]}.

(** A leaf whose [guides] is the array of two guides and whose [slices]
    is the empty array. *)
Definition leafWithGuides : PsdLayerNode.props :=
  {| PsdLayerNode.type := "Layer"; PsdLayerNode.name := "a";
     PsdLayerNode.width := Some 10; PsdLayerNode.height := Some 20;
     PsdLayerNode.opacity := Some 255; PsdLayerNode.visible := Some true;
     PsdLayerNode.open := None;
     PsdLayerNode.top := Some 10; PsdLayerNode.left := Some (-4);
     PsdLayerNode.blendMode := Some "norm"; PsdLayerNode.clipped := Some false;
     PsdLayerNode.text := Some "";
     PsdLayerNode.guides := Some 1%positive; PsdLayerNode.slices := Some 2%positive |}.

(** A browser whose data URLs tell the size of the canvas and whether
    anything was put on it, with a parser that returns [doc] for every
    file and a call stack with room for 2500 nested calls of the walk. *)
Definition sampleHost (ctx : bool) (doc : result Psd.t) : Host :=
  {| callDepth := 2500;
     parse := fun _ => doc;
     getContext2d := ctx;
     imageDataError := fun _ _ _ => None;
     toDataURL := fun c =>
       "data:" +:+ pretty (Canvas.width c) +:+ "x" +:+ pretty (Canvas.height c)
       +:+ (match Canvas.bitmap c with [] => ",blank" | _ :: _ => ",drawn" end) |}.

(** A document of one opaque black pixel. *)
Definition onePixel (children : list node) : Psd.t :=
  {| Psd.width := 1; Psd.height := 1; Psd.colorMode := "3";
     Psd.composite := Ok [Byte.x00; Byte.x00; Byte.x00; Byte.xff];
     Psd.children := children |}.

(** A document of one pixel whose layer tree is 3000 nested groups
    around one layer. *)
Definition deepDocument : Psd.t := onePixel [deepGroups 3000].

Definition sampleFile : File := {| arrayBuffer := Ok [Byte.x38; Byte.x42; Byte.x50; Byte.x53] |}.

(** The state left by an earlier, successful analysis. *)
Definition previousState : State :=
  {| psdInfo := Some {| PsdFileInfo.width := 8; PsdFileInfo.height := 8;
                        PsdFileInfo.colorMode := "3"; PsdFileInfo.layers := [] |};
     imagePreview := "data:8x8,drawn" |}.

(** ** The walk on arbitrary trees *)

(** No [null]/[undefined] anywhere in the tree: what the annotation
    [PsdLayerNode[]] promises for [children]. *)
Fixpoint nullFree (n : node) : bool :=
  match n with
  | Nullish => false
  | Node _ children =>
      match children with
      | Some cs => forallb nullFree cs
      | None => true
      end
  end.

(** The exception of line 106, [node.type] read on a node that is not an
    object. *)
Definition nullNodeError : exn :=
  TypeError "Cannot read properties of undefined (reading 'type')".

(** A record is one of the two object literals of the walk, built from a
    node of the matching type. *)
Definition leafOrGroupRecord (r : Layer.t) : Prop :=
  (exists p, isLayer p = true /\ r = layerRecord p)
  \/ (exists p, isGroup p = true /\ r = groupRecord p).

(** A walker keeps a property of the collected records. *)
Definition keepsRecords (I : Layer.t -> Prop) (w : walker) : Prop :=
  forall ls ls', Forall I ls -> w ls = Ok ls' -> Forall I ls'.

(** The records a walker adds for a tree are, in order, among the display
    records of its nodes. *)
Definition recordsWithinPreorder (n : node) (w : walker) : Prop :=
  forall recs, w [] = Ok recs -> sublist recs (map displayRecord (preorder n)).

(** ** The pipeline over its stages and over several selections *)

(** The exception of the first stage that throws, in the order of the
    [try] block: byte read, parse, composite, [ImageData], walk. *)
Definition firstFailure (host : Host) (f : File) : option exn :=
  match arrayBuffer f with
  | Throw e => Some e
  | Ok bytes =>
      match parse host bytes with
      | Throw e => Some e
      | Ok psdFile =>
          match Psd.composite psdFile with
          | Throw e => Some e
          | Ok buf =>
              match imageDataError host buf (Psd.width psdFile) (Psd.height psdFile) with
              | Some e => Some e
              | None =>
                  match flatten (callDepth host) (Psd.children psdFile) with
                  | Throw e => Some e
                  | Ok _ => None
                  end
              end
          end
      end
  end.

(** The canvas that lines 82-93 leave when neither the composite nor the
    [ImageData] constructor throws. *)
Definition compositeCanvas (host : Host) (psdFile : Psd.t) (buf : Uint8ClampedArray)
  : Canvas.t :=
  let sized := setHeight (setWidth createCanvas (Psd.width psdFile)) (Psd.height psdFile) in
  if getContext2d host
  then putImageData sized
         {| ImageData.data := buf;
            ImageData.width := Psd.width psdFile;
            ImageData.height := Psd.height psdFile |} 0 0
  else sized.

(** The handler called once per change event of the file input, each
    call starting from the state and log the previous one left (runs
    that do not overlap). *)
Fixpoint session (host : Host) (events : list (option File)) (st : State) (log : Log)
  : State * Log :=
  match events with
  | [] => (st, log)
  | ev :: rest =>
      let '(st', log') := analyzePsd host ev st log in
      session host rest st' log'
  end.

(** A selection whose analysis throws. *)
Definition fails (host : Host) (ev : option File) : bool :=
  match ev with
  | Some f => match firstFailure host f with Some _ => true | None => false end
  | None => false
  end.

(** The summary a selection produces when its analysis runs to the end. *)
Definition summaryOf (host : Host) (ev : option File) : option PsdFileInfo.t :=
  match ev with
  | None => None
  | Some f =>
      match firstFailure host f, arrayBuffer f with
      | None, Ok bytes =>
          match parse host bytes with
          | Ok psdFile =>
              match collectInfo host psdFile with
              | Ok info => Some info
              | Throw _ => None
              end
          | Throw _ => None
          end
      | _, _ => None
      end
  end.

(** The summary of the last selection that produced one, [init] when
    none did. *)
Definition lastSummary (host : Host) (events : list (option File))
           (init : option PsdFileInfo.t) : option PsdFileInfo.t :=
  fold_left (fun acc ev => match summaryOf host ev with
                           | Some info => Some info
                           | None => acc
                           end)
            events init.

(** The info panel is never shown without the preview image. *)
Definition panelImpliesPreview (st : State) : Prop :=
  psdInfo st <> None -> imagePreview st <> "".

(** Selections for the session examples: a file that parses to a
    one-pixel document, a cancelled dialog, and a file whose bytes cannot
    be read. *)
Definition unreadableFile : File :=
  {| arrayBuffer := Throw (ExternalError "NotReadableError") |}.

Definition sampleEvents : list (option File) :=
  [Some sampleFile; None; Some unreadableFile; Some unreadableFile].

(** * Properties *)

Lemma collectLayerInfo_unfold (depth : nat) (n : node) (ls : list Layer.t) :
  collectLayerInfo depth n ls =
  match n with
  | Nullish => Throw (TypeError "Cannot read properties of undefined (reading 'type')")
  | Node p children =>
      if String.eqb (PsdLayerNode.type p) "Layer" then
        Ok (ls ++ [layerRecord p])
      else if String.eqb (PsdLayerNode.type p) "Group" then
        match children with
        | None => Ok (ls ++ [groupRecord p])
        | Some cs => forEach (callChild depth) cs (ls ++ [groupRecord p])
        end
      else Ok ls
  end.
Proof. destruct depth; reflexivity. Qed.

(** ** Induction on trees and on the depth of the walk *)


(** A property of walkers holds of every call of the walk, and of every
    call made for a child, when it holds of the call that cannot be made
    and passes from the calls for the children to the call for the
    node. *)
Lemma walk_ind (P : node -> walker -> Prop) :
  (forall n, P n (fun _ => Throw stackExhausted)) ->
  (forall depth n, (forall c, P c (callChild depth c)) -> P n (collectLayerInfo depth n)) ->
  forall depth n, P n (collectLayerInfo depth n) /\ P n (callChild depth n).
Proof.
  intros Hfull Hstep.
  assert (H : forall depth n, P n (callChild depth n)).
  { induction depth as [|below IH]; intros n.
    - apply Hfull.
    - exact (Hstep below n IH). }
  intros depth n. split; [apply Hstep, H | apply H].
Qed.

(** ** The result monad and [forEach] *)

Lemma bind_assoc {A B C} (r : result A) (f : A -> result B) (g : B -> result C) :
  bind (bind r f) g = bind r (fun a => bind (f a) g).
Proof. destruct r; reflexivity. Qed.

Lemma bind_ext {A B} (r : result A) (f g : A -> result B) :
  (forall a, f a = g a) -> bind r f = bind r g.
Proof. intros H. destruct r; simpl; [apply H | reflexivity]. Qed.

Lemma forEach_app {A S} (f : A -> S -> result S) (xs ys : list A) (s : S) :
  forEach f (xs ++ ys) s = bind (forEach f xs s) (forEach f ys).
Proof.
  revert s. induction xs as [|x xs IH]; intros s; simpl; [reflexivity|].
  rewrite bind_assoc. apply bind_ext. exact IH.
Qed.

(** ** The walk only appends *)

Lemma forEach_appends (f : node -> walker) (cs : list node) :
  (forall c, appends (f c)) ->
  forall pre ls,
    forEach f cs (pre ++ ls) = bind (forEach f cs ls) (fun r => Ok (pre ++ r)).
Proof.
  intros Hf. induction cs as [|c rest IH]; intros pre ls; simpl; [reflexivity|].
  rewrite (Hf c (pre ++ ls)), (Hf c ls), !bind_assoc.
  apply bind_ext. intros r. simpl.
  rewrite <- app_assoc. apply IH.
Qed.

Lemma walk_appends (depth : nat) (n : node) :
  appends (collectLayerInfo depth n) /\ appends (callChild depth n).
Proof.
  apply (walk_ind (fun _ w => appends w)); clear depth n.
  - intros _ ls. reflexivity.
  - intros depth n IH ls. rewrite !collectLayerInfo_unfold.
    destruct n as [p children|]; [|reflexivity].
    destruct (String.eqb _ "Layer"); [reflexivity|].
    destruct (String.eqb _ "Group"); [|simpl; now rewrite app_nil_r].
    destruct children as [cs|]; [|reflexivity].
    apply (forEach_appends (callChild depth) cs IH ls ([] ++ [groupRecord p])).
Qed.

Lemma collectLayerInfo_appends (depth : nat) (n : node) :
  appends (collectLayerInfo depth n).
Proof. apply walk_appends. Qed.

Lemma callChild_appends (depth : nat) (n : node) : appends (callChild depth n).
Proof. apply walk_appends. Qed.

Lemma forEach_from (f : node -> walker) (cs : list node) (ls : list Layer.t) :
  (forall c, appends (f c)) ->
  forEach f cs ls = bind (forEach f cs []) (fun r => Ok (ls ++ r)).
Proof.
  intros Hf. rewrite <- (app_nil_r ls) at 1. now apply forEach_appends.
Qed.

Lemma forEach_collect_from (depth : nat) (cs : list node) (ls : list Layer.t) :
  forEach (collectLayerInfo depth) cs ls =
  bind (forEach (collectLayerInfo depth) cs []) (fun r => Ok (ls ++ r)).
Proof. apply forEach_from, collectLayerInfo_appends. Qed.

(** The records of a sequence of siblings: those of the first node and
    its descendants, then those of the nodes after it. *)
Lemma forEach_cons_from (f : node -> walker) (c : node) (cs : list node)
      (ls : list Layer.t) :
  (forall c, appends (f c)) ->
  forEach f (c :: cs) ls =
  bind (f c [])
       (fun r1 => bind (forEach f cs []) (fun r2 => Ok (ls ++ r1 ++ r2))).
Proof.
  intros Hf. simpl. rewrite (Hf c ls), bind_assoc.
  apply bind_ext. intros r1. simpl.
  rewrite (forEach_from f cs (ls ++ r1) Hf).
  apply bind_ext. intros r2. now rewrite app_assoc.
Qed.

Lemma forEach_collect_cons (depth : nat) (c : node) (cs : list node)
      (ls : list Layer.t) :
  forEach (collectLayerInfo depth) (c :: cs) ls =
  bind (collectLayerInfo depth c [])
       (fun r1 => bind (forEach (collectLayerInfo depth) cs [])
                       (fun r2 => Ok (ls ++ r1 ++ r2))).
Proof. apply (forEach_cons_from (collectLayerInfo depth)), collectLayerInfo_appends. Qed.

(** A group: its own record, then the records of its children. *)
Lemma collectLayerInfo_group (depth : nat) (p : PsdLayerNode.props)
      (children : option (list node)) (ls : list Layer.t) :
  isGroup p = true ->
  collectLayerInfo depth (Node p children) ls =
  bind (forEach (callChild depth) (childrenOf children) [])
       (fun recs => Ok (ls ++ groupRecord p :: recs)).
Proof.
  intros Hg. rewrite collectLayerInfo_unfold.
  unfold isGroup in Hg. rewrite Hg.
  destruct (String.eqb (PsdLayerNode.type p) "Layer") eqn:Hl.
  - apply String.eqb_eq in Hl, Hg. rewrite Hl in Hg. discriminate.
  - destruct children as [cs|]; simpl.
    + rewrite (forEach_from (callChild depth) cs _ (callChild_appends depth)).
      apply bind_ext. intros r. now rewrite <- app_assoc.
    + reflexivity.
Qed.

Lemma collectLayerInfo_other (depth : nat) (p : PsdLayerNode.props)
      (children : option (list node)) (ls : list Layer.t) :
  isLayer p = false -> isGroup p = false ->
  collectLayerInfo depth (Node p children) ls = Ok ls.
Proof.
  intros Hl Hg. rewrite collectLayerInfo_unfold.
  unfold isLayer, isGroup in *. now rewrite Hl, Hg.
Qed.

Lemma collectLayerInfo_layer (depth : nat) (p : PsdLayerNode.props)
      (children : option (list node)) (ls : list Layer.t) :
  isLayer p = true ->
  collectLayerInfo depth (Node p children) ls = Ok (ls ++ [layerRecord p]).
Proof.
  intros Hl. rewrite collectLayerInfo_unfold.
  unfold isLayer in Hl. now rewrite Hl.
Qed.

(** ** Trees of layers and groups are flattened in pre-order *)

Lemma displayRecord_layer (p : PsdLayerNode.props) :
  isLayer p = true -> displayRecord p = layerRecord p.
Proof. intros H. unfold displayRecord. now rewrite H. Qed.

Lemma displayRecord_group (p : PsdLayerNode.props) :
  isLayer p = false -> displayRecord p = groupRecord p.
Proof. intros H. unfold displayRecord. now rewrite H. Qed.

Lemma forEach_flattensInOrder (f : node -> walker) (cs : list node) :
  (forall c, flattensInOrder c (f c)) ->
  forallb recognised cs = true -> forallb leafLayers cs = true ->
  forall ls ls',
    forEach f cs ls = Ok ls' ->
    ls' = ls ++ map displayRecord (flat_map preorder cs).
Proof.
  intros Hf. induction cs as [|c rest IH]; intros Hr Hl ls ls' Hrun; simpl in Hrun.
  - injection Hrun as <-. simpl. now rewrite app_nil_r.
  - simpl in Hr, Hl.
    apply andb_true_iff in Hr as [Hr1 Hr2]. apply andb_true_iff in Hl as [Hl1 Hl2].
    destruct (f c ls) as [l1|] eqn:E; [|discriminate]. simpl in Hrun.
    rewrite (IH Hr2 Hl2 l1 ls' Hrun), (Hf c Hr1 Hl1 ls l1 E).
    simpl. now rewrite map_app, app_assoc.
Qed.

Lemma walk_flattensInOrder (depth : nat) (n : node) :
  flattensInOrder n (collectLayerInfo depth n) /\ flattensInOrder n (callChild depth n).
Proof.
  apply (walk_ind flattensInOrder); clear depth n.
  - intros n _ _ ls ls'. discriminate.
  - intros depth [p children|] IH Hr Hl ls ls' Hrun; [|discriminate].
    simpl in Hr, Hl.
    apply andb_true_iff in Hr as [Hty Hr]. apply andb_true_iff in Hl as [Hleaf Hl].
    destruct (isLayer p) eqn:HL.
    + rewrite (collectLayerInfo_layer depth p children ls HL) in Hrun.
      injection Hrun as <-. simpl. rewrite (displayRecord_layer p HL).
      destruct children as [[|c cs]|]; simpl in *; try reflexivity; discriminate.
    + simpl in Hty. rewrite collectLayerInfo_unfold in Hrun.
      fold (isLayer p) (isGroup p) in Hrun. rewrite HL, Hty in Hrun.
      simpl. rewrite (displayRecord_group p HL).
      destruct children as [cs|].
      * rewrite (forEach_flattensInOrder (callChild depth) cs IH Hr Hl _ _ Hrun).
        now rewrite <- app_assoc.
      * injection Hrun as <-. reflexivity.
Qed.

Lemma nesting_unfold (p : PsdLayerNode.props) (children : option (list node)) :
  nesting (Node p children) =
  if isLayer p then O
  else if isGroup p then deepest (childrenOf children)
  else O.
Proof.
  simpl. destruct (isLayer p); [reflexivity|].
  destruct (isGroup p); [|reflexivity].
  destruct children as [cs|]; [|reflexivity].
  induction cs as [|c rest IH]; simpl; [reflexivity | now rewrite IH].
Qed.







Example flatten_no_children (depth : nat) : flatten depth [] = Ok [].
Proof. reflexivity. Qed.

Example flatten_nestedGroups :
  flatten 2 nestedGroups =
  Ok [groupRecord (group "outer"); groupRecord (group "inner");
      layerRecord (leaf "a" 10 20)].
Proof. reflexivity. Qed.

(** ** Nesting deeper than the call stack *)

Lemma deepGroups_well_formed (k : nat) :
  recognised (deepGroups k) = true /\ leafLayers (deepGroups k) = true
  /\ nullFree (deepGroups k) = true.
Proof.
  induction k as [|k (Hr & Hl & Hn)]; [repeat split|].
  simpl. now rewrite Hr, Hl, Hn.
Qed.

Lemma deepGroups_exhausts_stack (depth k : nat) (ls : list Layer.t) :
  (depth < k)%nat -> collectLayerInfo depth (deepGroups k) ls = Throw stackExhausted.
Proof.
  revert k ls. induction depth as [|below IH]; intros [|k] ls Hk; try lia.
  - reflexivity.
  - rewrite collectLayerInfo_unfold. cbn. rewrite IH; [reflexivity | lia].
Qed.

Lemma flatten_deepGroups (depth k : nat) :
  (depth < k)%nat -> flatten depth [deepGroups k] = Throw stackExhausted.
Proof.
  intros Hk. unfold flatten. cbn [forEach].
  now rewrite (deepGroups_exhausts_stack depth k [] Hk).
Qed.


Example flatten_3000_nested_groups :
  flatten 2500 [deepGroups 3000] = Throw stackExhausted.
Proof. apply flatten_deepGroups, Nat.ltb_lt. vm_compute. reflexivity. Qed.

(** ** Nodes the walk does not know *)

(** C4: a node object whose discriminant is neither ['Layer'] nor
    ['Group'] adds no record and does not throw, whatever has been
    collected so far and whatever room the stack has below the call, and
    the walk goes on over the nodes around it as if it were not there. *)
Theorem unknown_type_skipped (p : PsdLayerNode.props) (children : option (list node)) :
  isLayer p = false -> isGroup p = false ->
  (forall depth ls, collectLayerInfo depth (Node p children) ls = Ok ls)
  /\ (forall depth before after ls,
         forEach (collectLayerInfo depth) (before ++ Node p children :: after) ls =
         forEach (collectLayerInfo depth) (before ++ after) ls).
Proof.
  intros Hl Hg. split.
  - intros depth ls. now apply collectLayerInfo_other.
  - intros depth before after ls. rewrite !forEach_app.
    apply bind_ext. intros ls'. cbn [forEach].
    now rewrite (collectLayerInfo_other depth p children ls' Hl Hg).
Qed.

Lemma unknown_type_skipped_witness :
  isLayer (artboard "board") = false
  /\ isGroup (artboard "board") = false
  /\ flatten 0 aroundArtboard =
     Ok [layerRecord (leaf "a" 10 20); layerRecord (leaf "b" 30 40)].
Proof.
  split; [reflexivity|]. split; [reflexivity|].
  exact (eq_trans
           (proj2 (unknown_type_skipped (artboard "board")
                     (Some [Node (leaf "hidden" 1 1) None]) eq_refl eq_refl)
                  0%nat [Node (leaf "a" 10 20) None] [Node (leaf "b" 30 40) None] [])
           eq_refl).
Defined.

(** C10: the subtree below a node of unknown type is never entered: the
    outcome of the walk is [Ok] with nothing added, and it is the outcome
    for the same node without children, whatever its children are
    (layers, groups, even [null]) and whatever room the stack has; a
    group that holds such a node collects what it would collect with the
    childless node in its place and, when the stack has room for the
    calls on the group's children, what it would collect without the
    node. *)
Theorem unknown_type_subtree_skipped (p : PsdLayerNode.props) (children : option (list node)) :
  isLayer p = false -> isGroup p = false ->
  (forall depth ls, collectLayerInfo depth (Node p children) ls = Ok ls)
  /\ (forall depth ls,
         collectLayerInfo depth (Node p children) ls =
         collectLayerInfo depth (Node p None) ls)
  /\ (forall depth g before after ls,
         isGroup g = true ->
         collectLayerInfo depth (Node g (Some (before ++ Node p children :: after))) ls =
         collectLayerInfo depth (Node g (Some (before ++ Node p None :: after))) ls)
  /\ (forall depth g before after ls,
         isGroup g = true ->
         collectLayerInfo (S depth) (Node g (Some (before ++ Node p children :: after))) ls =
         collectLayerInfo (S depth) (Node g (Some (before ++ after))) ls).
Proof.
  intros Hl Hg. split; [|split; [|split]].
  - intros depth ls. now apply collectLayerInfo_other.
  - intros depth ls. now rewrite !collectLayerInfo_other.
  - intros depth g before after ls HG.
    rewrite !(collectLayerInfo_group depth g _ ls HG). simpl.
    rewrite !forEach_app. f_equal.
    apply bind_ext. intros ls'. cbn [forEach]. f_equal.
    destruct depth as [|below]; [reflexivity|]. cbn [callChild].
    now rewrite !collectLayerInfo_other.
  - intros depth g before after ls HG.
    rewrite !(collectLayerInfo_group (S depth) g _ ls HG). simpl.
    rewrite !forEach_app. f_equal.
    apply bind_ext. intros ls'. cbn [forEach callChild].
    now rewrite (collectLayerInfo_other depth p children ls' Hl Hg).
Qed.

Lemma unknown_type_subtree_skipped_witness :
  isLayer (artboard "board") = false
  /\ isGroup (artboard "board") = false
  /\ preorder (Node (artboard "board") (Some [Node (leaf "hidden" 1 1) None; Nullish]))
     = [artboard "board"; leaf "hidden" 1 1]
  /\ collectLayerInfo 0
       (Node (artboard "board") (Some [Node (leaf "hidden" 1 1) None; Nullish])) []
     = Ok [].
Proof.
  split; [reflexivity|]. split; [reflexivity|]. split; [reflexivity|].
  exact (proj1 (unknown_type_subtree_skipped (artboard "board")
                  (Some [Node (leaf "hidden" 1 1) None; Nullish]) eq_refl eq_refl)
               0%nat []).
Defined.

(** ** Leaf records *)

(** C5: a node of type ['Layer'] adds exactly one record, and its width,
    height, top, left and opacity are the node's own values. *)
Theorem layer_numeric_fields_copied (depth : nat) (p : PsdLayerNode.props)
        (children : option (list node)) (ls : list Layer.t) :
  isLayer p = true ->
  exists r,
    collectLayerInfo depth (Node p children) ls = Ok (ls ++ [r])
    /\ Layer.width r = PsdLayerNode.width p
    /\ Layer.height r = PsdLayerNode.height p
    /\ Layer.top r = PsdLayerNode.top p
    /\ Layer.left r = PsdLayerNode.left p
    /\ Layer.opacity r = PsdLayerNode.opacity p.
Proof.
  intros Hl. exists (layerRecord p).
  rewrite (collectLayerInfo_layer depth p children ls Hl). repeat split.
Qed.

Lemma layer_numeric_fields_copied_witness :
  isLayer (leaf "a" 10 20) = true
  /\ exists r,
       collectLayerInfo 0 (Node (leaf "a" 10 20) None) [] = Ok ([] ++ [r])
       /\ Layer.width r = Some 10
       /\ Layer.height r = Some 20
       /\ Layer.top r = Some 10
       /\ Layer.left r = Some (-4)
       /\ Layer.opacity r = Some 255.
Proof.
  split; [reflexivity|].
  exact (layer_numeric_fields_copied 0 (leaf "a" 10 20) None [] eq_refl).
Defined.

(** ** Group records *)

(** C6: a node of type ['Group'] adds one record that carries the node's
    name, open flag, guides and slices and none of width, height,
    opacity, position, text, blend mode, clipping flag and visibility;
    the records of its children, taken in the children's own order,
    follow it directly, and the records of the group's later siblings
    come after them. *)
Theorem group_record_then_children (p : PsdLayerNode.props)
        (children : option (list node)) :
  isGroup p = true ->
  let g := groupRecord p in
  (Layer.name g = PsdLayerNode.name p
   /\ Layer.open g = PsdLayerNode.open p
   /\ Layer.guides g = PsdLayerNode.guides p
   /\ Layer.slices g = PsdLayerNode.slices p)
  /\ (Layer.width g = None /\ Layer.height g = None /\ Layer.opacity g = None
      /\ Layer.top g = None /\ Layer.left g = None /\ Layer.text g = None
      /\ Layer.blendMode g = None /\ Layer.clipped g = None
      /\ Layer.visible g = None)
  /\ (forall depth ls,
         collectLayerInfo depth (Node p children) ls =
         bind (forEach (callChild depth) (childrenOf children) [])
              (fun recs => Ok (ls ++ g :: recs)))
  /\ (forall depth ls,
         collectLayerInfo (S depth) (Node p children) ls =
         bind (forEach (collectLayerInfo depth) (childrenOf children) [])
              (fun recs => Ok (ls ++ g :: recs)))
  /\ (forall depth c cs,
         forEach (collectLayerInfo depth) (c :: cs) [] =
         bind (collectLayerInfo depth c [])
              (fun first => bind (forEach (collectLayerInfo depth) cs [])
                                 (fun others => Ok (first ++ others))))
  /\ (forall depth siblings ls,
         forEach (collectLayerInfo depth) (Node p children :: siblings) ls =
         bind (forEach (callChild depth) (childrenOf children) [])
              (fun recs => bind (forEach (collectLayerInfo depth) siblings [])
                                (fun later => Ok (ls ++ g :: recs ++ later)))).
Proof.
  intros Hg g. split; [repeat split|]. split; [repeat split|].
  split; [|split; [|split]].
  - intros depth ls. now apply collectLayerInfo_group.
  - intros depth ls. now apply (collectLayerInfo_group (S depth)).
  - intros depth c cs. apply (forEach_collect_cons depth c cs []).
  - intros depth siblings ls. rewrite forEach_collect_cons.
    rewrite (collectLayerInfo_group depth p children [] Hg), bind_assoc.
    apply bind_ext. intros recs. reflexivity.
Qed.

Lemma group_record_then_children_witness :
  isGroup (group "g") = true
  /\ forEach (collectLayerInfo 1)
    (Node (group "g") (Some [Node (leaf "a" 10 20) None; Node (leaf "b" 30 40) None])
       :: [Node (leaf "c" 5 5) None]) []
  = Ok [groupRecord (group "g"); layerRecord (leaf "a" 10 20);
        layerRecord (leaf "b" 30 40); layerRecord (leaf "c" 5 5)]
  /\ Layer.width (groupRecord (group "g")) = None
  /\ Layer.text (groupRecord (group "g")) = None.
Proof.
  pose proof (group_record_then_children (group "g")
                (Some [Node (leaf "a" 10 20) None; Node (leaf "b" 30 40) None])
                eq_refl) as (_ & (Hw & _ & _ & _ & _ & Ht & _) & _ & _ & _ & Hs).
  split; [reflexivity|].
  split; [|split; [exact Hw | exact Ht]].
  rewrite (Hs 1%nat [Node (leaf "c" 5 5) None] []). reflexivity.
Defined.

(** ** The rendered text of a leaf record *)

Lemma childText_textChild (layer : Layer.t) :
  childText (textChild layer) = textSuffix layer.
Proof.
  unfold textChild, textSuffix. now destruct (Layer.text layer) as [[|c t]|].
Qed.

Lemma arrayLength_deref (a : arrays) (l : loc) (label : string) :
  childText (jsAnd (VBool (0 <? arrayLength a l))
                   (VString (label +:+ interpolate (VNumber (arrayLength a l)))))
  = countSuffix label (deref a (Some l)).
Proof.
  unfold arrayLength, deref, countSuffix.
  destruct (default [] (a !! l)) as [|x xs]; reflexivity.
Qed.

Lemma childText_guidesChild (a : arrays) (layer : Layer.t) :
  childText (guidesChild a layer) = countSuffix ", ガイド数: " (deref a (Layer.guides layer)).
Proof.
  unfold guidesChild. destruct (Layer.guides layer) as [l|]; [|reflexivity].
  apply arrayLength_deref.
Qed.

Lemma childText_slicesChild (a : arrays) (layer : Layer.t) :
  childText (slicesChild a layer) = countSuffix ", スライス数: " (deref a (Layer.slices layer)).
Proof.
  unfold slicesChild. destruct (Layer.slices layer) as [l|]; [|reflexivity].
  apply arrayLength_deref.
Qed.

(** C7: the text rendered for a leaf record is the fixed part followed
    by the three suffixes and the closing parenthesis, where the text
    suffix is there only for a non-empty text and each count suffix only
    for a list that exists and holds at least one element, whose number
    it shows; a suffix whose source is absent or empty contributes no
    character at all. *)
Theorem leaf_suffixes_conditional (a : arrays) (layer : Layer.t) :
  Layer.type layer = "Layer" ->
  let guides := deref a (Layer.guides layer) in
  let slices := deref a (Layer.slices layer) in
  layerText a layer =
    "🖼️" +:+ " " +:+ Layer.name layer +:+ spanHead layer
    +:+ (textSuffix layer
         +:+ countSuffix ", ガイド数: " guides
         +:+ countSuffix ", スライス数: " slices)
    +:+ ")"
  /\ (textSuffix layer = "" <->
      Layer.text layer = None \/ Layer.text layer = Some "")
  /\ (forall t, Layer.text layer = Some t -> t <> "" ->
                textSuffix layer = ", テキスト: " +:+ t)
  /\ (countSuffix ", ガイド数: " guides = "" <-> guides = None \/ guides = Some [])
  /\ (forall xs, guides = Some xs -> xs <> [] ->
                 countSuffix ", ガイド数: " guides =
                 ", ガイド数: " +:+ pretty (Z.of_nat (length xs)))
  /\ (countSuffix ", スライス数: " slices = "" <-> slices = None \/ slices = Some [])
  /\ (forall xs, slices = Some xs -> xs <> [] ->
                 countSuffix ", スライス数: " slices =
                 ", スライス数: " +:+ pretty (Z.of_nat (length xs))).
Proof.
  intros Hty guides slices. split.
  - unfold layerText, spanSuffixes. rewrite Hty. simpl.
    now rewrite childText_textChild, childText_guidesChild, childText_slicesChild.
  - split; [|split; [|split; [|split; [|split]]]].
    + unfold textSuffix. destruct (Layer.text layer) as [[|c t]|]; simpl.
      * split; auto.
      * split; [discriminate | intros [H|H]; discriminate].
      * split; auto.
    + intros t Ht Hne. unfold textSuffix. rewrite Ht.
      destruct t; [congruence | reflexivity].
    + destruct guides as [[|x xs]|]; simpl.
      * split; auto.
      * split; [discriminate | intros [H|H]; discriminate].
      * split; auto.
    + intros xs -> Hne. destruct xs; [congruence | reflexivity].
    + destruct slices as [[|x xs]|]; simpl.
      * split; auto.
      * split; [discriminate | intros [H|H]; discriminate].
      * split; auto.
    + intros xs -> Hne. destruct xs; [congruence | reflexivity].
Qed.

(** A leaf with two guides, an empty slices array and an empty text:
    only the guide count, "2", is shown. *)
Lemma leaf_suffixes_conditional_witness :
  Layer.type (layerRecord leafWithGuides) = "Layer"
  /\ layerText sampleArrays (layerRecord leafWithGuides) =
     "🖼️ a (10x20, 位置: X:-4px Y:10px, 不透明度: 255%, 表示: 表示, ブレンドモード: norm, クリッピング: なし, ガイド数: 2)".
Proof.
  split; [reflexivity|].
  exact (eq_trans
           (proj1 (leaf_suffixes_conditional sampleArrays (layerRecord leafWithGuides)
                     eq_refl))
           eq_refl).
Defined.

Example leaf_without_guides :
  layerText sampleArrays (layerRecord (leaf "b" 30 40)) =
    "🖼️ b (30x40, 位置: X:-4px Y:10px, 不透明度: 255%, 表示: 表示, ブレンドモード: norm, クリッピング: なし)".
Proof. vm_compute. reflexivity. Qed.

Example group_line :
  layerText sampleArrays (groupRecord (group "g")) = "📁 g".
Proof. vm_compute. reflexivity. Qed.


(** ** The analysis pipeline *)

(** The [try] block, stage by stage. *)
Lemma tryBlock_stages (host : Host) (f : File) (st : State) :
  tryBlock host f st =
  match arrayBuffer f with
  | Throw e => (st, Throw e)
  | Ok bytes =>
      match parse host bytes with
      | Throw e => (st, Throw e)
      | Ok psdFile =>
          match drawComposite host psdFile with
          | Throw e => (st, Throw e)
          | Ok canvas =>
              match collectInfo host psdFile with
              | Throw e =>
                  ({| psdInfo := psdInfo st; imagePreview := toDataURL host canvas |},
                   Throw e)
              | Ok info =>
                  ({| psdInfo := Some info; imagePreview := toDataURL host canvas |},
                   Ok tt)
              end
          end
      end
  end.
Proof.
  unfold tryBlock, bindM, lift, setImagePreview, setPsdInfo.
  destruct (arrayBuffer f) as [bytes|e]; [|reflexivity].
  destruct (parse host bytes) as [psdFile|e]; [|reflexivity].
  destruct (drawComposite host psdFile) as [canvas|e]; [|reflexivity].
  destruct (collectInfo host psdFile) as [info|e]; reflexivity.
Qed.

Lemma drawComposite_composite_throws (host : Host) (psdFile : Psd.t) (e : exn) :
  Psd.composite psdFile = Throw e -> drawComposite host psdFile = Throw e.
Proof. intros H. unfold drawComposite. now rewrite H. Qed.

Lemma render_initialState (a : arrays) :
  preview (render a initialState) = None /\ infoPanel (render a initialState) = None.
Proof. split; reflexivity. Qed.

(** C2 (as amended): when the run throws during the byte read, the parse
    or the composite, both state slots are left as they were, so the page
    renders what it rendered before the selection (no image and no info
    panel on a page that showed none), and exactly one alert, with the
    fixed message, is added. *)
Theorem early_failure_keeps_state (host : Host) (f : File) (st : State) (log : Log) :
  throwsEarly host f = true ->
  exists e,
    analyzePsd host (Some f) st log = (st, catch e log)
    /\ alerts (catch e log) = alerts log ++ [failureMessage]
    /\ (forall a, st = initialState ->
                  preview (render a st) = None /\ infoPanel (render a st) = None).
Proof.
  intros H. unfold throwsEarly in H. unfold analyzePsd. rewrite tryBlock_stages.
  assert (R : forall a, st = initialState ->
                        preview (render a st) = None /\ infoPanel (render a st) = None).
  { intros a ->. apply render_initialState. }
  destruct (arrayBuffer f) as [bytes|e]; [|now exists e].
  destruct (parse host bytes) as [psdFile|e]; [|now exists e].
  destruct (Psd.composite psdFile) as [buf|e] eqn:Hc; [discriminate|].
  rewrite (drawComposite_composite_throws host psdFile e Hc). now exists e.
Qed.

Lemma early_failure_keeps_state_witness :
  throwsEarly (sampleHost true (Throw (ExternalError "Invalid PSD signature")))
              sampleFile = true
  /\ exists e,
    analyzePsd (sampleHost true (Throw (ExternalError "Invalid PSD signature")))
               (Some sampleFile) initialState emptyLog
    = (initialState, catch e emptyLog)
    /\ alerts (catch e emptyLog) = alerts emptyLog ++ [failureMessage]
    /\ (forall a, initialState = initialState ->
                  preview (render a initialState) = None
                  /\ infoPanel (render a initialState) = None).
Proof.
  split; [reflexivity|].
  exact (early_failure_keeps_state
           (sampleHost true (Throw (ExternalError "Invalid PSD signature")))
           sampleFile initialState emptyLog eq_refl).
Defined.

(** C2 (as stated) fails: after an earlier successful analysis, a file
    that does not parse leaves the earlier image and info panel on the
    page. *)
Lemma parse_failure_does_not_clear :
  ~ (forall (host : Host) (f : File) (st : State) (log : Log) (a : arrays),
        throwsEarly host f = true ->
        let st' := fst (analyzePsd host (Some f) st log) in
        let log' := snd (analyzePsd host (Some f) st log) in
        preview (render a st') = None
        /\ infoPanel (render a st') = None
        /\ alerts log' = alerts log ++ [failureMessage]).
Proof.
  intros H.
  destruct (H (sampleHost true (Throw (ExternalError "Invalid PSD signature")))
              sampleFile previousState emptyLog ∅ eq_refl) as [Hp _].
  vm_compute in Hp. discriminate.
Qed.

(** What a run leaves when the walk throws after the composite was
    drawn: the new preview beside the old summary. *)
Lemma analyzePsd_walk_throws (host : Host) (f : File) (st : State) (log : Log)
      (bytes : list Byte.byte) (psdFile : Psd.t) (canvas : Canvas.t) (e : exn) :
  arrayBuffer f = Ok bytes ->
  parse host bytes = Ok psdFile ->
  drawComposite host psdFile = Ok canvas ->
  flatten (callDepth host) (Psd.children psdFile) = Throw e ->
  analyzePsd host (Some f) st log =
  ({| psdInfo := psdInfo st; imagePreview := toDataURL host canvas |}, catch e log).
Proof.
  intros Hf Hp Hd Hw. unfold analyzePsd. rewrite tryBlock_stages, Hf, Hp, Hd.
  unfold collectInfo. fold (flatten (callDepth host) (Psd.children psdFile)).
  now rewrite Hw.
Qed.

(** C8: the code at a failing input.  A document of 3000 nested groups
    around one layer, every node a ['Layer'] or a ['Group'], is selected
    after an earlier analysis succeeded, where the call stack has room
    for 2500 nested calls of the walk.  The walk ends in a [RangeError]
    after [setImagePreview] has run: the preview slot holds the image of
    the new file, the info slot still holds the earlier summary, so the
    two slots are neither both unchanged nor both cleared. *)
Theorem deep_nesting_leaves_half_updated_state :
  let host := sampleHost true (Ok deepDocument) in
  let st' := fst (analyzePsd host (Some sampleFile) previousState emptyLog) in
  forallb recognised (Psd.children deepDocument) = true
  /\ forallb leafLayers (Psd.children deepDocument) = true
  /\ analyzePsd host (Some sampleFile) previousState emptyLog =
     ({| psdInfo := psdInfo previousState; imagePreview := "data:1x1,drawn" |},
      catch stackExhausted emptyLog)
  /\ ~ (psdInfo st' = psdInfo previousState /\ imagePreview st' = imagePreview previousState)
  /\ ~ (psdInfo st' = None /\ imagePreview st' = "").
Proof.
  intros host st'.
  destruct (deepGroups_well_formed 3000) as (Hr & Hl & _).
  assert (E : analyzePsd host (Some sampleFile) previousState emptyLog =
              ({| psdInfo := psdInfo previousState; imagePreview := "data:1x1,drawn" |},
               catch stackExhausted emptyLog)).
  { apply (analyzePsd_walk_throws host sampleFile previousState emptyLog
             [Byte.x38; Byte.x42; Byte.x50; Byte.x53] deepDocument
             (compositeCanvas host deepDocument [Byte.x00; Byte.x00; Byte.x00; Byte.xff]));
      [reflexivity | reflexivity | reflexivity |].
    apply (flatten_deepGroups 2500 3000), Nat.ltb_lt. vm_compute. reflexivity. }
  split; [cbn [forallb Psd.children deepDocument onePixel]; now rewrite Hr|].
  split; [cbn [forallb Psd.children deepDocument onePixel]; now rewrite Hl|].
  split; [exact E|].
  subst st'. rewrite E. cbn [fst psdInfo imagePreview previousState].
  split; intros [H1 H2]; discriminate.
Qed.

(** ** The composite image *)

Lemma orZero_Some (n : number) : orZero (Some n) = n.
Proof.
  unfold orZero, jsOr. simpl. destruct (Z.eqb_spec n 0) as [->|]; reflexivity.
Qed.

(** C9 (as amended): when the file is read, parsed, composited and
    wrapped in an [ImageData] without an exception and the layer info is
    collected, the canvas has exactly the width and height of the
    document; the composite buffer, unchanged and with the document's
    dimensions, is the one thing put on it, at (0,0), provided a 2D
    context was obtained (without one nothing is put and the blank
    canvas is encoded); and the image element, if rendered, shows the
    data URL of that canvas with the document's width and height. *)
Theorem composite_drawn_at_document_size
        (host : Host) (f : File) (st : State) (log : Log)
        (bytes : list Byte.byte) (psdFile : Psd.t) (buf : Uint8ClampedArray)
        (info : PsdFileInfo.t) :
  arrayBuffer f = Ok bytes ->
  parse host bytes = Ok psdFile ->
  Psd.composite psdFile = Ok buf ->
  imageDataError host buf (Psd.width psdFile) (Psd.height psdFile) = None ->
  collectInfo host psdFile = Ok info ->
  exists canvas,
    drawComposite host psdFile = Ok canvas
    /\ Canvas.width canvas = Psd.width psdFile
    /\ Canvas.height canvas = Psd.height psdFile
    /\ Canvas.bitmap canvas =
       (if getContext2d host
        then [({| ImageData.data := buf;
                  ImageData.width := Psd.width psdFile;
                  ImageData.height := Psd.height psdFile |}, 0, 0)]
        else [])
    /\ let st' := fst (analyzePsd host (Some f) st log) in
       imagePreview st' = toDataURL host canvas
       /\ forall a img,
            preview (render a st') = Some img ->
            Image.src img = toDataURL host canvas
            /\ Image.width img = Psd.width psdFile
            /\ Image.height img = Psd.height psdFile.
Proof.
  intros Hf Hp Hc Himg Hinfo.
  assert (Hd : drawComposite host psdFile =
               Ok (if getContext2d host
                   then putImageData
                          (setHeight (setWidth createCanvas (Psd.width psdFile))
                                     (Psd.height psdFile))
                          {| ImageData.data := buf;
                             ImageData.width := Psd.width psdFile;
                             ImageData.height := Psd.height psdFile |} 0 0
                   else setHeight (setWidth createCanvas (Psd.width psdFile))
                                  (Psd.height psdFile))).
  { unfold drawComposite, newImageData. rewrite Hc. simpl. now rewrite Himg. }
  eexists. split; [exact Hd|].
  split; [now destruct (getContext2d host)|].
  split; [now destruct (getContext2d host)|].
  split; [now destruct (getContext2d host)|].
  unfold analyzePsd. rewrite tryBlock_stages, Hf, Hp, Hd, Hinfo. simpl.
  split; [reflexivity|].
  intros a img. unfold render. simpl.
  destruct (negb _); [|discriminate].
  intros [= <-]. simpl. rewrite !orZero_Some.
  unfold collectInfo in Hinfo.
  destruct (forEach (collectLayerInfo (callDepth host)) (Psd.children psdFile) []);
    [|discriminate].
  simpl in Hinfo. injection Hinfo as <-. repeat split.
Qed.

Lemma composite_drawn_at_document_size_witness :
  parse (sampleHost true (Ok (onePixel groupOfTwo)))
        [Byte.x38; Byte.x42; Byte.x50; Byte.x53] = Ok (onePixel groupOfTwo)
  /\ exists canvas,
    drawComposite (sampleHost true (Ok (onePixel groupOfTwo))) (onePixel groupOfTwo)
    = Ok canvas
    /\ Canvas.width canvas = 1
    /\ Canvas.height canvas = 1
    /\ Canvas.bitmap canvas =
       [({| ImageData.data := [Byte.x00; Byte.x00; Byte.x00; Byte.xff];
            ImageData.width := 1; ImageData.height := 1 |}, 0, 0)]
    /\ let st' := fst (analyzePsd (sampleHost true (Ok (onePixel groupOfTwo)))
                                  (Some sampleFile) initialState emptyLog) in
       imagePreview st' = toDataURL (sampleHost true (Ok (onePixel groupOfTwo))) canvas
       /\ forall a img,
            preview (render a st') = Some img ->
            Image.src img = toDataURL (sampleHost true (Ok (onePixel groupOfTwo))) canvas
            /\ Image.width img = 1
            /\ Image.height img = 1.
Proof.
  split; [reflexivity|].
  exact (composite_drawn_at_document_size
           (sampleHost true (Ok (onePixel groupOfTwo))) sampleFile initialState emptyLog
           _ (onePixel groupOfTwo) _ _ eq_refl eq_refl eq_refl eq_refl eq_refl).
Defined.

(** The same for documents of 1 by 1, 100 by 50 and 4096 by 4096 pixels,
    whatever their buffer and layers. *)
Corollary rendered_size_of_sample_documents
          (w h : number) (buf : Uint8ClampedArray) (mode : string) (a : arrays) :
  In (w, h) [(1, 1); (100, 50); (4096, 4096)] ->
  let doc := {| Psd.width := w; Psd.height := h; Psd.colorMode := mode;
                Psd.composite := Ok buf; Psd.children := groupOfTwo |} in
  let st' := fst (analyzePsd (sampleHost true (Ok doc)) (Some sampleFile)
                             initialState emptyLog) in
  exists img, preview (render a st') = Some img
              /\ Image.width img = w /\ Image.height img = h.
Proof.
  intros _ doc st'.
  exists {| Image.src := imagePreview st'; Image.alt := "PSD preview";
            Image.width := orZero (Some w); Image.height := orZero (Some h) |}.
  split; [reflexivity|]. simpl. now rewrite !orZero_Some.
Qed.

(** C9 (as stated) fails: when [getContext('2d')] returns [null] the
    buffer is not put on the canvas, and the run goes on without it. *)
Lemma composite_not_drawn_without_context :
  ~ (forall (host : Host) (psdFile : Psd.t) (buf : Uint8ClampedArray),
        Psd.composite psdFile = Ok buf ->
        imageDataError host buf (Psd.width psdFile) (Psd.height psdFile) = None ->
        exists canvas,
          drawComposite host psdFile = Ok canvas
          /\ Canvas.bitmap canvas =
             [({| ImageData.data := buf;
                  ImageData.width := Psd.width psdFile;
                  ImageData.height := Psd.height psdFile |}, 0, 0)]).
Proof.
  intros H.
  destruct (H (sampleHost false (Ok (onePixel []))) (onePixel []) _ eq_refl eq_refl)
    as (canvas & Hd & Hb).
  vm_compute in Hd. injection Hd as <-. discriminate.
Qed.


(** ** What a display record shares with its source node *)

Lemma forEach_recordsFromNodes (f : node -> walker) (cs : list node) :
  (forall c, appends (f c)) ->
  (forall c, recordsFromNodes c (f c)) ->
  forall recs, forEach f cs [] = Ok recs ->
  forall r, In r recs ->
  exists p, In p (flat_map preorder cs) /\ r = displayRecord p.
Proof.
  intros Ha Hf. induction cs as [|c rest IH]; intros recs Hrecs r Hr.
  - injection Hrecs as <-. destruct Hr.
  - rewrite (forEach_cons_from f c rest [] Ha) in Hrecs.
    destruct (f c []) as [r1|] eqn:E1; [|discriminate].
    simpl in Hrecs.
    destruct (forEach f rest []) as [r2|] eqn:E2; [|discriminate].
    injection Hrecs as <-. simpl in Hr. apply in_app_or in Hr as [Hr|Hr].
    + destruct (Hf c r1 E1 r Hr) as (p & Hp & ->).
      exists p. split; [|reflexivity]. simpl. apply in_or_app. now left.
    + destruct (IH r2 eq_refl r Hr) as (p & Hp & ->).
      exists p. split; [|reflexivity]. simpl. apply in_or_app. now right.
Qed.

Lemma walk_recordsFromNodes (depth : nat) (n : node) :
  recordsFromNodes n (collectLayerInfo depth n) /\ recordsFromNodes n (callChild depth n).
Proof.
  apply (walk_ind recordsFromNodes); clear depth n.
  - intros n recs. discriminate.
  - intros depth [p children|] IH recs Hrecs r Hr;
      [|rewrite collectLayerInfo_unfold in Hrecs; discriminate].
    destruct (isLayer p) eqn:HL.
    + rewrite (collectLayerInfo_layer depth p children [] HL) in Hrecs.
      injection Hrecs as <-. destruct Hr as [<-|[]].
      exists p. split; [now left | now rewrite displayRecord_layer].
    + destruct (isGroup p) eqn:HG.
      * rewrite (collectLayerInfo_group depth p children [] HG) in Hrecs.
        destruct (forEach (callChild depth) (childrenOf children) []) as [crecs|] eqn:E;
          [|discriminate].
        injection Hrecs as <-. destruct Hr as [<-|Hr].
        -- exists p. split; [now left | now rewrite displayRecord_group].
        -- destruct (forEach_recordsFromNodes (callChild depth) _
                       (callChild_appends depth) IH crecs E r Hr) as (q & Hq & ->).
           exists q. split; [|reflexivity]. right.
           now destruct children.
      * rewrite (collectLayerInfo_other depth p children [] HL HG) in Hrecs.
        injection Hrecs as <-. destruct Hr.
Qed.

Lemma displayRecord_arrays (p : PsdLayerNode.props) :
  Layer.guides (displayRecord p) = PsdLayerNode.guides p
  /\ Layer.slices (displayRecord p) = PsdLayerNode.slices p.
Proof. unfold displayRecord. now destruct (isLayer p). Qed.

Lemma deref_insert_eq (a : arrays) (l : loc) (xs : list item) :
  deref (<[l := xs]> a) (Some l) = Some xs.
Proof. unfold deref. now rewrite lookup_insert_eq. Qed.

Lemma deref_insert_ne (a : arrays) (l : loc) (xs : list item) (ref : option loc) :
  ref <> Some l -> deref (<[l := xs]> a) ref = deref a ref.
Proof.
  intros Hne. destruct ref as [l'|]; [|reflexivity].
  unfold deref. rewrite lookup_insert_ne; [reflexivity | congruence].
Qed.

(** C3 (as amended): every display record is the projection of one node
    of the tree; its guides and slices properties hold the node's own
    array objects, not copies.  So whatever the arrays hold, the record
    and its node show the same guides and slices, a write through the
    record's reference is a write to the node's list, and only a write to
    an array that the record does not refer to leaves what it shows
    untouched. *)
Theorem records_share_arrays_with_nodes
        (depth : nat) (roots : list node) (recs : list Layer.t) :
  flatten depth roots = Ok recs ->
  forall r, In r recs ->
  exists p,
    In p (preorderList roots)
    /\ r = displayRecord p
    /\ Layer.guides r = PsdLayerNode.guides p
    /\ Layer.slices r = PsdLayerNode.slices p
    /\ (forall a, deref a (Layer.guides r) = deref a (PsdLayerNode.guides p)
                  /\ deref a (Layer.slices r) = deref a (PsdLayerNode.slices p))
    /\ (forall a l xs,
           Layer.guides r = Some l ->
           deref (<[l := xs]> a) (PsdLayerNode.guides p) = Some xs)
    /\ (forall a l xs,
           Layer.slices r = Some l ->
           deref (<[l := xs]> a) (PsdLayerNode.slices p) = Some xs)
    /\ (forall a l xs,
           Layer.guides r <> Some l -> Layer.slices r <> Some l ->
           deref (<[l := xs]> a) (Layer.guides r) = deref a (Layer.guides r)
           /\ deref (<[l := xs]> a) (Layer.slices r) = deref a (Layer.slices r)).
Proof.
  intros Hrecs r Hr.
  destruct (forEach_recordsFromNodes (collectLayerInfo depth) roots
              (collectLayerInfo_appends depth)
              (fun c => proj1 (walk_recordsFromNodes depth c)) recs Hrecs r Hr)
    as (p & Hp & ->).
  destruct (displayRecord_arrays p) as [Hg Hs].
  exists p. split; [exact Hp|]. split; [reflexivity|].
  split; [exact Hg|]. split; [exact Hs|].
  split; [intros a; now rewrite Hg, Hs|].
  split; [intros a l xs H; rewrite <- Hg, H; apply deref_insert_eq|].
  split; [intros a l xs H; rewrite <- Hs, H; apply deref_insert_eq|].
  intros a l xs H1 H2. split; now apply deref_insert_ne.
Qed.

Lemma records_share_arrays_with_nodes_witness :
  flatten 0 [Node leafWithGuides None] = Ok [layerRecord leafWithGuides]
  /\ exists p,
       In p (preorderList [Node leafWithGuides None])
       /\ layerRecord leafWithGuides = displayRecord p
       /\ Layer.guides (layerRecord leafWithGuides) = PsdLayerNode.guides p
       /\ Layer.slices (layerRecord leafWithGuides) = PsdLayerNode.slices p.
Proof.
  split; [reflexivity|].
  destruct (records_share_arrays_with_nodes 0 [Node leafWithGuides None]
              [layerRecord leafWithGuides] eq_refl (layerRecord leafWithGuides)
              (or_introl eq_refl))
    as (p & Hp & Hr & Hg & Hs & _).
  exists p. repeat split; assumption.
Defined.

(** C3 (as stated) fails: pushing a guide onto a record's guides list
    changes the guides of the source node. *)
Lemma record_guides_alias_node_guides :
  ~ (forall (depth : nat) (a : arrays) (roots : list node) (recs : list Layer.t),
        flatten depth roots = Ok recs ->
        forall (r : Layer.t) (l : loc) (x : item),
          In r recs -> Layer.guides r = Some l ->
          observeTree (push a l x) roots = observeTree a roots).
Proof.
  intros H.
  specialize (H 0%nat sampleArrays [Node leafWithGuides None] [layerRecord leafWithGuides]
                eq_refl (layerRecord leafWithGuides) 1%positive
                (GuideItem {| position := 0; orientation := horizontal |})
                (or_introl eq_refl) eq_refl).
  vm_compute in H. discriminate.
Qed.

(** The other direction: pushing a guide onto the node's guides list
    changes what the emitted record shows. *)
Example node_guides_alias_record_guides :
  PsdLayerNode.guides leafWithGuides = Some 1%positive
  /\ observeLayers
       (push sampleArrays 1%positive
             (GuideItem {| position := 0; orientation := horizontal |}))
       [layerRecord leafWithGuides]
     <> observeLayers sampleArrays [layerRecord leafWithGuides].
Proof.
  split; [reflexivity|]. vm_compute. discriminate.
Qed.

(** * Further properties of the walk *)

(** ** Invariants of the collected records *)

Lemma forEach_keeps {A S} (f : A -> S -> result S) (I : S -> Prop) (xs : list A) :
  Forall (fun x => forall s s', I s -> f x s = Ok s' -> I s') xs ->
  forall s s', I s -> forEach f xs s = Ok s' -> I s'.
Proof.
  induction 1 as [|x rest Hx _ IH]; intros s s' Hs Hrun; simpl in Hrun.
  - now injection Hrun as <-.
  - destruct (f x s) as [s1|] eqn:E; [|discriminate].
    simpl in Hrun. exact (IH s1 s' (Hx s s1 Hs E) Hrun).
Qed.

Lemma walk_keeps (I : Layer.t -> Prop) :
  (forall p, isLayer p = true -> I (layerRecord p)) ->
  (forall p, isGroup p = true -> I (groupRecord p)) ->
  forall depth n,
    keepsRecords I (collectLayerInfo depth n) /\ keepsRecords I (callChild depth n).
Proof.
  intros HL HG.
  apply (walk_ind (fun _ w => keepsRecords I w)).
  - intros _ ls ls' _. discriminate.
  - intros depth [p children|] IH ls ls' Hls Hrun;
      [|rewrite collectLayerInfo_unfold in Hrun; discriminate].
    rewrite collectLayerInfo_unfold in Hrun. fold (isLayer p) (isGroup p) in Hrun.
    destruct (isLayer p) eqn:El.
    + injection Hrun as <-. apply Forall_app. split; [exact Hls|].
      constructor; [now apply HL | constructor].
    + destruct (isGroup p) eqn:Eg; [|now injection Hrun as <-].
      assert (Hg : Forall I (ls ++ [groupRecord p])).
      { apply Forall_app. split; [exact Hls|]. constructor; [now apply HG | constructor]. }
      destruct children as [cs|]; [|now injection Hrun as <-].
      refine (forEach_keeps (callChild depth) (Forall I) cs _ _ _ Hg Hrun).
      apply Forall_forall. intros c _. exact (IH c).
Qed.

Lemma flatten_keeps (I : Layer.t -> Prop) (depth : nat) (roots : list node)
      (recs : list Layer.t) :
  (forall p, isLayer p = true -> I (layerRecord p)) ->
  (forall p, isGroup p = true -> I (groupRecord p)) ->
  flatten depth roots = Ok recs -> Forall I recs.
Proof.
  intros HL HG Hrun.
  refine (forEach_keeps (collectLayerInfo depth) (Forall I) roots _ [] recs
            (Forall_nil_2 I) Hrun).
  apply Forall_forall. intros n _. exact (proj1 (walk_keeps I HL HG depth n)).
Qed.

(** X1: whatever the tree holds (unknown discriminants, layers with
    children), every record of the flattened list is one of the two
    literals, built from a node of the matching type: its [type] is
    ['Layer'] or ['Group'], a ['Layer'] record has no open flag, and a
    ['Group'] record has none of the leaf-only properties. *)
Theorem flatten_records_are_leaf_or_group
        (depth : nat) (roots : list node) (recs : list Layer.t) :
  flatten depth roots = Ok recs ->
  Forall (fun r =>
            leafOrGroupRecord r
            /\ (Layer.type r = "Layer" /\ Layer.open r = None
                \/ Layer.type r = "Group" /\ Layer.width r = None
                   /\ Layer.height r = None /\ Layer.text r = None)) recs.
Proof.
  intros Hrun. apply (flatten_keeps _ depth roots recs); [| |exact Hrun].
  - intros p Hp. split; [left; now exists p|].
    left. split; [|reflexivity]. now apply String.eqb_eq.
  - intros p Hp. split; [right; now exists p|].
    right. split; [|repeat split]. now apply String.eqb_eq.
Qed.

Lemma flatten_records_are_leaf_or_group_witness :
  flatten 0 aroundArtboard = Ok [layerRecord (leaf "a" 10 20); layerRecord (leaf "b" 30 40)]
  /\ Forall (fun r =>
               leafOrGroupRecord r
               /\ (Layer.type r = "Layer" /\ Layer.open r = None
                   \/ Layer.type r = "Group" /\ Layer.width r = None
                      /\ Layer.height r = None /\ Layer.text r = None))
            [layerRecord (leaf "a" 10 20); layerRecord (leaf "b" 30 40)].
Proof.
  split; [reflexivity|].
  exact (flatten_records_are_leaf_or_group 0 aroundArtboard _ eq_refl).
Defined.

(** ** The records are a subsequence of the pre-order *)

Lemma forEach_recordsWithinPreorder (f : node -> walker) (cs : list node) :
  (forall c, appends (f c)) ->
  (forall c, recordsWithinPreorder c (f c)) ->
  forall recs, forEach f cs [] = Ok recs ->
               sublist recs (map displayRecord (flat_map preorder cs)).
Proof.
  intros Ha Hf. induction cs as [|c rest IH]; intros recs Hrun.
  - injection Hrun as <-. constructor.
  - rewrite (forEach_cons_from f c rest [] Ha) in Hrun.
    destruct (f c []) as [r1|] eqn:E1; [|discriminate].
    simpl in Hrun.
    destruct (forEach f rest []) as [r2|] eqn:E2; [|discriminate].
    injection Hrun as <-. simpl. rewrite map_app.
    apply sublist_app; [exact (Hf c r1 E1) | exact (IH r2 eq_refl)].
Qed.

Lemma walk_recordsWithinPreorder (depth : nat) (n : node) :
  recordsWithinPreorder n (collectLayerInfo depth n)
  /\ recordsWithinPreorder n (callChild depth n).
Proof.
  apply (walk_ind recordsWithinPreorder); clear depth n.
  - intros n recs. discriminate.
  - intros depth [p children|] IH recs Hrun;
      [|rewrite collectLayerInfo_unfold in Hrun; discriminate].
    destruct (isLayer p) eqn:El.
    + rewrite (collectLayerInfo_layer depth p children [] El) in Hrun.
      injection Hrun as <-. simpl. rewrite (displayRecord_layer p El).
      apply sublist_skip, sublist_nil_l.
    + destruct (isGroup p) eqn:Eg.
      * rewrite (collectLayerInfo_group depth p children [] Eg) in Hrun.
        destruct (forEach (callChild depth) (childrenOf children) []) as [crecs|] eqn:E;
          [|discriminate].
        injection Hrun as <-. simpl. rewrite (displayRecord_group p El).
        apply sublist_skip.
        destruct children as [cs|]; simpl in *.
        -- exact (forEach_recordsWithinPreorder (callChild depth) cs
                    (callChild_appends depth) IH crecs E).
        -- injection E as <-. constructor.
      * rewrite (collectLayerInfo_other depth p children [] El Eg) in Hrun.
        injection Hrun as <-. apply sublist_nil_l.
Qed.

(** X2: for every tree, the flattened list is an order-preserving
    subsequence of the display records of the tree's nodes taken in
    pre-order: no node yields two records, no record is out of pre-order,
    and there are never more records than nodes. *)
Theorem flatten_subsequence_of_preorder
        (depth : nat) (roots : list node) (recs : list Layer.t) :
  flatten depth roots = Ok recs ->
  sublist recs (map displayRecord (preorderList roots))
  /\ (length recs <= length (preorderList roots))%nat.
Proof.
  intros Hrun.
  assert (Hsub : sublist recs (map displayRecord (preorderList roots))).
  { exact (forEach_recordsWithinPreorder (collectLayerInfo depth) roots
             (collectLayerInfo_appends depth)
             (fun c => proj1 (walk_recordsWithinPreorder depth c)) recs Hrun). }
  split; [exact Hsub|].
  apply sublist_length in Hsub. now rewrite length_map in Hsub.
Qed.

Lemma flatten_subsequence_of_preorder_witness :
  flatten 0 aroundArtboard = Ok [layerRecord (leaf "a" 10 20); layerRecord (leaf "b" 30 40)]
  /\ preorderList aroundArtboard =
     [leaf "a" 10 20; artboard "board"; leaf "hidden" 1 1; leaf "b" 30 40]
  /\ sublist [layerRecord (leaf "a" 10 20); layerRecord (leaf "b" 30 40)]
             (map displayRecord (preorderList aroundArtboard)).
Proof.
  split; [reflexivity|]. split; [reflexivity|].
  exact (proj1 (flatten_subsequence_of_preorder 0 aroundArtboard _ eq_refl)).
Defined.

(** ** When the walk throws *)

Lemma deepest_bounds (cs : list node) (c : node) :
  In c cs -> (S (nesting c) <= deepest cs)%nat.
Proof.
  induction cs as [|x rest IH]; intros Hc; [destruct Hc|].
  simpl. destruct Hc as [<-|Hc]; [lia|]. specialize (IH Hc). lia.
Qed.

Lemma forallb_nullFree_false (cs : list node) (c : node) :
  In c cs -> nullFree c = false -> forallb nullFree cs = false.
Proof.
  induction cs as [|x rest IH]; intros Hc Hnull; [destruct Hc|].
  simpl. destruct Hc as [<-|Hc].
  - now rewrite Hnull.
  - rewrite (IH Hc Hnull). apply andb_false_r.
Qed.

Lemma forEach_throws {A S} (f : A -> S -> result S) (xs : list A) (s : S) (e : exn) :
  forEach f xs s = Throw e -> exists x s', In x xs /\ f x s' = Throw e.
Proof.
  revert s. induction xs as [|x rest IH]; intros s Hrun; simpl in Hrun; [discriminate|].
  destruct (f x s) as [s1|e1] eqn:E; simpl in Hrun.
  - destruct (IH s1 Hrun) as (y & s' & Hy & Hthrow). exists y, s'. split; [now right | exact Hthrow].
  - injection Hrun as <-. exists x, s. split; [now left | exact E].
Qed.

(** The walk throws only for one of two causes: a [null] node, or
    nesting deeper than the stack has room for. *)
Lemma collectLayerInfo_throws (depth : nat) (n : node) (ls : list Layer.t) (e : exn) :
  collectLayerInfo depth n ls = Throw e ->
  e = nullNodeError /\ nullFree n = false
  \/ e = stackExhausted /\ (depth < nesting n)%nat.
Proof.
  revert n ls. induction depth as [|below IH]; intros [p children|] ls Hrun;
    rewrite collectLayerInfo_unfold in Hrun;
    try (injection Hrun as <-; left; split; reflexivity);
    rewrite nesting_unfold; fold (isLayer p) (isGroup p) in Hrun;
    destruct (isLayer p); try discriminate;
    destruct (isGroup p); try discriminate;
    destruct children as [cs|]; try discriminate;
    apply forEach_throws in Hrun as (c & l & Hc & Hthrow); simpl.
  - right. injection Hthrow as <-. split; [reflexivity|].
    pose proof (deepest_bounds cs c Hc). lia.
  - cbn [callChild] in Hthrow.
    destruct (IH c l Hthrow) as [[-> Hnull]|[-> Hdeep]].
    + left. split; [reflexivity|]. exact (forallb_nullFree_false cs c Hc Hnull).
    + right. split; [reflexivity|]. pose proof (deepest_bounds cs c Hc). lia.
Qed.

(** X3: on a tree that holds no [null]/[undefined] node and nests its
    groups no deeper than the call stack has room for, the walk always
    returns a list, whatever the discriminants of the nodes and wherever
    children arrays hang. *)
Theorem flatten_returns_on_objects (depth : nat) (roots : list node) :
  forallb nullFree roots = true ->
  withinDepth depth roots = true ->
  exists recs, flatten depth roots = Ok recs.
Proof.
  intros Hnf Hd. destruct (flatten depth roots) as [recs|e] eqn:E; [now exists recs|].
  exfalso. apply forEach_throws in E as (n & l & Hn & Hthrow).
  unfold withinDepth in Hd. rewrite forallb_forall in Hnf, Hd.
  specialize (Hnf n Hn). specialize (Hd n Hn). apply Nat.leb_le in Hd.
  destruct (collectLayerInfo_throws depth n l e Hthrow) as [[_ H]|[_ H]];
    [congruence | lia].
Qed.

Lemma flatten_returns_on_objects_witness :
  forallb nullFree (layerWithChild ++ nestedGroups ++ aroundArtboard) = true
  /\ withinDepth 2 (layerWithChild ++ nestedGroups ++ aroundArtboard) = true
  /\ exists recs, flatten 2 (layerWithChild ++ nestedGroups ++ aroundArtboard) = Ok recs.
Proof.
  split; [reflexivity|]. split; [reflexivity|].
  exact (flatten_returns_on_objects 2 (layerWithChild ++ nestedGroups ++ aroundArtboard)
           eq_refl eq_refl).
Defined.

(** X4: when the walk ends in an exception, it is either the [TypeError]
    of reading [type] on a [null]/[undefined] node, and the tree holds
    such a node, or the [RangeError] of the full call stack, and the tree
    nests its groups deeper than the stack has room for. *)
Theorem flatten_throws_for_two_causes (depth : nat) (roots : list node) (e : exn) :
  flatten depth roots = Throw e ->
  e = nullNodeError /\ forallb nullFree roots = false
  \/ e = stackExhausted /\ withinDepth depth roots = false.
Proof.
  intros Hrun. apply forEach_throws in Hrun as (n & l & Hn & Hthrow).
  destruct (collectLayerInfo_throws depth n l e Hthrow) as [[-> H]|[-> H]].
  - left. split; [reflexivity|]. exact (forallb_nullFree_false roots n Hn H).
  - right. split; [reflexivity|]. unfold withinDepth.
    destruct (forallb _ roots) eqn:E; [|reflexivity].
    rewrite forallb_forall in E. specialize (E n Hn). apply Nat.leb_le in E. lia.
Qed.

Lemma flatten_throws_for_two_causes_witness :
  flatten 1 [Node (group "g") (Some [Node (leaf "a" 10 20) None; Nullish])]
  = Throw nullNodeError
  /\ flatten 1 nestedGroups = Throw stackExhausted
  /\ (nullNodeError = nullNodeError
      /\ forallb nullFree [Node (group "g") (Some [Node (leaf "a" 10 20) None; Nullish])]
         = false
      \/ nullNodeError = stackExhausted
         /\ withinDepth 1 [Node (group "g") (Some [Node (leaf "a" 10 20) None; Nullish])]
            = false).
Proof.
  split; [reflexivity|]. split; [reflexivity|].
  exact (flatten_throws_for_two_causes 1
           [Node (group "g") (Some [Node (leaf "a" 10 20) None; Nullish])]
           nullNodeError eq_refl).
Defined.

(** X5: a [null]/[undefined] node among siblings aborts the walk: if the
    nodes before it are walked without error the outcome is the
    [TypeError], whatever comes after it and whatever was collected, at
    the root and, where the stack has room for the calls on the
    children, inside a group alike; the records collected so far are not
    returned. *)
Theorem null_node_aborts_walk (depth : nat) (before after : list node) (ls : list Layer.t) :
  forEach (collectLayerInfo depth) (before ++ Nullish :: after) ls =
    bind (forEach (collectLayerInfo depth) before ls) (fun _ => Throw nullNodeError)
  /\ (forall g, isGroup g = true ->
        collectLayerInfo (S depth) (Node g (Some (before ++ Nullish :: after))) ls =
        bind (forEach (collectLayerInfo depth) before (ls ++ [groupRecord g]))
             (fun _ => Throw nullNodeError)).
Proof.
  assert (H : forall l, forEach (collectLayerInfo depth) (before ++ Nullish :: after) l =
                        bind (forEach (collectLayerInfo depth) before l)
                             (fun _ => Throw nullNodeError)).
  { intros l. rewrite forEach_app. apply bind_ext. intros l'.
    cbn [forEach]. now rewrite collectLayerInfo_unfold. }
  split; [apply H|].
  intros g Hg. rewrite collectLayerInfo_unfold.
  unfold isGroup in Hg. rewrite Hg.
  destruct (String.eqb (PsdLayerNode.type g) "Layer") eqn:Hl.
  - apply String.eqb_eq in Hl, Hg. rewrite Hl in Hg. discriminate.
  - apply H.
Qed.

(** ** Layers are leaves for the walk *)

(** X6: the children of a node of type ['Layer'] are never entered: the
    node adds its one record whatever hangs below it (layers, groups,
    even [null]), and a group that holds it collects the same records as
    with the childless node in its place. *)
Theorem layer_children_never_entered (p : PsdLayerNode.props)
        (children : option (list node)) :
  isLayer p = true ->
  (forall depth ls,
      collectLayerInfo depth (Node p children) ls = Ok (ls ++ [layerRecord p]))
  /\ (forall depth before after ls,
         forEach (collectLayerInfo depth) (before ++ Node p children :: after) ls =
         forEach (collectLayerInfo depth) (before ++ Node p None :: after) ls)
  /\ (forall depth g before after ls,
         isGroup g = true ->
         collectLayerInfo depth (Node g (Some (before ++ Node p children :: after))) ls =
         collectLayerInfo depth (Node g (Some (before ++ Node p None :: after))) ls).
Proof.
  intros Hl.
  assert (H : forall depth before after ls,
             forEach (collectLayerInfo depth) (before ++ Node p children :: after) ls =
             forEach (collectLayerInfo depth) (before ++ Node p None :: after) ls).
  { intros depth before after ls. rewrite !forEach_app.
    apply bind_ext. intros l. cbn [forEach].
    now rewrite !(collectLayerInfo_layer depth p _ l Hl). }
  split; [|split].
  - intros depth ls. now apply collectLayerInfo_layer.
  - exact H.
  - intros [|below] g before after ls Hg;
      rewrite !(collectLayerInfo_group _ g _ ls Hg); simpl.
    + rewrite !forEach_app. f_equal.
    + f_equal. apply (H below).
Qed.

Lemma layer_children_never_entered_witness :
  isLayer (leaf "a" 10 20) = true
  /\ flatten 0 [Node (leaf "a" 10 20) (Some [Node (group "below") None; Nullish])]
     = Ok [layerRecord (leaf "a" 10 20)].
Proof.
  split; [reflexivity|].
  exact (proj1 (layer_children_never_entered (leaf "a" 10 20)
                  (Some [Node (group "below") None; Nullish]) eq_refl) 0%nat []).
Defined.

(** ** The walk only appends *)

(** X7: a walk that returns leaves the records collected before it in
    place, as a prefix, and what it appends does not depend on them: it
    is the list the same walk gives from an empty list, and the walk
    returns from any other starting list as well. *)
Theorem walk_appends_independent_of_prefix
        (depth : nat) (roots : list node) (ls ls' : list Layer.t) :
  forEach (collectLayerInfo depth) roots ls = Ok ls' ->
  exists added,
    flatten depth roots = Ok added
    /\ ls' = ls ++ added
    /\ forall other, forEach (collectLayerInfo depth) roots other = Ok (other ++ added).
Proof.
  intros Hrun. rewrite forEach_collect_from in Hrun. fold (flatten depth roots) in Hrun.
  destruct (flatten depth roots) as [added|] eqn:E; [|discriminate].
  injection Hrun as <-. exists added. split; [reflexivity|]. split; [reflexivity|].
  intros other. rewrite forEach_collect_from. fold (flatten depth roots). now rewrite E.
Qed.

Lemma walk_appends_independent_of_prefix_witness :
  exists added,
    flatten 1 groupOfTwo = Ok added
    /\ [layerRecord (leaf "z" 1 1); groupRecord (group "g"); layerRecord (leaf "a" 10 20);
        layerRecord (leaf "b" 30 40)]
       = [layerRecord (leaf "z" 1 1)] ++ added
    /\ forall other, forEach (collectLayerInfo 1) groupOfTwo other = Ok (other ++ added).
Proof.
  exact (walk_appends_independent_of_prefix 1 groupOfTwo [layerRecord (leaf "z" 1 1)] _
           eq_refl).
Defined.

(** * Further properties of the pipeline *)

(** ** The handler, stage by stage *)

Lemma drawComposite_stages (host : Host) (psdFile : Psd.t) :
  drawComposite host psdFile =
  match Psd.composite psdFile with
  | Throw e => Throw e
  | Ok buf =>
      match imageDataError host buf (Psd.width psdFile) (Psd.height psdFile) with
      | Some e => Throw e
      | None => Ok (compositeCanvas host psdFile buf)
      end
  end.
Proof.
  unfold drawComposite, newImageData, compositeCanvas.
  destruct (Psd.composite psdFile) as [buf|e]; [|reflexivity]. simpl.
  destruct (imageDataError host buf _ _); reflexivity.
Qed.

Lemma analyzePsd_stages (host : Host) (f : File) (st : State) (log : Log) :
  analyzePsd host (Some f) st log =
  match arrayBuffer f with
  | Throw e => (st, catch e log)
  | Ok bytes =>
      match parse host bytes with
      | Throw e => (st, catch e log)
      | Ok psdFile =>
          match Psd.composite psdFile with
          | Throw e => (st, catch e log)
          | Ok buf =>
              match imageDataError host buf (Psd.width psdFile) (Psd.height psdFile) with
              | Some e => (st, catch e log)
              | None =>
                  let url := toDataURL host (compositeCanvas host psdFile buf) in
                  match flatten (callDepth host) (Psd.children psdFile) with
                  | Throw e => ({| psdInfo := psdInfo st; imagePreview := url |},
                                catch e log)
                  | Ok recs =>
                      ({| psdInfo :=
                            Some {| PsdFileInfo.width := Psd.width psdFile;
                                    PsdFileInfo.height := Psd.height psdFile;
                                    PsdFileInfo.colorMode := Psd.colorMode psdFile;
                                    PsdFileInfo.layers := recs |};
                          imagePreview := url |}, log)
                  end
              end
          end
      end
  end.
Proof.
  unfold analyzePsd. rewrite tryBlock_stages.
  destruct (arrayBuffer f) as [bytes|e]; [|reflexivity].
  destruct (parse host bytes) as [psdFile|e]; [|reflexivity].
  rewrite drawComposite_stages.
  destruct (Psd.composite psdFile) as [buf|e]; [|reflexivity].
  destruct (imageDataError host buf _ _) as [e|]; [reflexivity|].
  unfold collectInfo, flatten.
  destruct (forEach (collectLayerInfo (callDepth host)) (Psd.children psdFile) []);
    reflexivity.
Qed.

(** X8: the handler reports the exception of the first stage that
    throws, in the order byte read, parse, composite, [ImageData], walk,
    with one console entry and one alert added after those already
    there; when no stage throws, or no file was selected, the log is left
    as it was.  A missing 2D context is never reported. *)
Theorem first_failure_is_reported (host : Host) (ev : option File) (st : State) (log : Log) :
  snd (analyzePsd host ev st log) =
  match ev with
  | None => log
  | Some f =>
      match firstFailure host f with
      | Some e =>
          {| console := console log ++ [("PSDファイルの解析中にエラーが発生しました:", e)];
             alerts := alerts log ++ ["PSDファイルの解析に失敗しました"] |}
      | None => log
      end
  end.
Proof.
  destruct ev as [f|]; [|reflexivity].
  rewrite analyzePsd_stages. unfold firstFailure.
  destruct (arrayBuffer f) as [bytes|e]; [|reflexivity].
  destruct (parse host bytes) as [psdFile|e]; [|reflexivity].
  destruct (Psd.composite psdFile) as [buf|e]; [|reflexivity].
  destruct (imageDataError host buf _ _) as [e|]; [reflexivity|].
  destruct (flatten (callDepth host) (Psd.children psdFile)); reflexivity.
Qed.

(** X9: an analysis in which no stage throws replaces both slots
    wholesale: the state it leaves has the summary set and depends on the
    file alone, not on what was displayed before, and nothing is logged;
    selecting the same file again changes nothing. *)
Theorem successful_run_replaces_state (host : Host) (f : File) :
  firstFailure host f = None ->
  exists info url,
    (forall st log,
        analyzePsd host (Some f) st log =
        ({| psdInfo := Some info; imagePreview := url |}, log))
    /\ (forall st log,
           let st' := fst (analyzePsd host (Some f) st log) in
           fst (analyzePsd host (Some f) st' log) = st').
Proof.
  unfold firstFailure. intros Hok.
  destruct (arrayBuffer f) as [bytes|e] eqn:Hf; [|discriminate].
  destruct (parse host bytes) as [psdFile|e] eqn:Hp; [|discriminate].
  destruct (Psd.composite psdFile) as [buf|e] eqn:Hc; [|discriminate].
  destruct (imageDataError host buf _ _) as [e|] eqn:Hi; [discriminate|].
  destruct (flatten (callDepth host) (Psd.children psdFile)) as [recs|e] eqn:Hw;
    [|discriminate].
  assert (H : forall st log,
             analyzePsd host (Some f) st log =
             ({| psdInfo :=
                   Some {| PsdFileInfo.width := Psd.width psdFile;
                           PsdFileInfo.height := Psd.height psdFile;
                           PsdFileInfo.colorMode := Psd.colorMode psdFile;
                           PsdFileInfo.layers := recs |};
                 imagePreview := toDataURL host (compositeCanvas host psdFile buf) |},
              log)).
  { intros st log. now rewrite analyzePsd_stages, Hf, Hp, Hc, Hi, Hw. }
  eexists _, _. split; [exact H|].
  intros st log. cbv zeta. rewrite (H st log). cbn [fst]. now rewrite H.
Qed.

Lemma successful_run_replaces_state_witness :
  firstFailure (sampleHost true (Ok (onePixel groupOfTwo))) sampleFile = None
  /\ exists info url,
       (forall st log,
           analyzePsd (sampleHost true (Ok (onePixel groupOfTwo))) (Some sampleFile) st log =
           ({| psdInfo := Some info; imagePreview := url |}, log))
       /\ (forall st log,
              let st' := fst (analyzePsd (sampleHost true (Ok (onePixel groupOfTwo)))
                                         (Some sampleFile) st log) in
              fst (analyzePsd (sampleHost true (Ok (onePixel groupOfTwo)))
                              (Some sampleFile) st' log) = st').
Proof.
  split; [reflexivity|].
  exact (successful_run_replaces_state (sampleHost true (Ok (onePixel groupOfTwo)))
           sampleFile eq_refl).
Defined.

(** ** What the page shows after a run *)

(** X10: after an analysis in which no stage throws, of a document made
    of layers and groups whose layers are leaves, the info panel shows
    the document's width, height and colour mode in its three summary
    lines and, below them, one line per node of the tree, in pre-order. *)
Theorem panel_lists_nodes_in_preorder
        (host : Host) (f : File) (st : State) (log : Log) (a : arrays)
        (bytes : list Byte.byte) (psdFile : Psd.t) :
  arrayBuffer f = Ok bytes ->
  parse host bytes = Ok psdFile ->
  firstFailure host f = None ->
  forallb recognised (Psd.children psdFile) = true ->
  forallb leafLayers (Psd.children psdFile) = true ->
  infoPanel (render a (fst (analyzePsd host (Some f) st log))) =
  Some {| summary :=
            [ "幅: " +:+ pretty (Psd.width psdFile) +:+ "px";
              "高さ: " +:+ pretty (Psd.height psdFile) +:+ "px";
              "カラーモード: " +:+ Psd.colorMode psdFile ];
          layerLines :=
            map (fun p => layerText a (displayRecord p))
                (preorderList (Psd.children psdFile)) |}.
Proof.
  intros Hf Hp Hok Hr Hl. unfold firstFailure in Hok.
  rewrite analyzePsd_stages. rewrite Hf, Hp in *.
  destruct (Psd.composite psdFile) as [buf|e]; [|discriminate].
  destruct (imageDataError host buf _ _) as [e|]; [discriminate|].
  destruct (flatten (callDepth host) (Psd.children psdFile)) as [recs|e] eqn:Hw;
    [|discriminate].
  assert (Hrecs : recs = map displayRecord (preorderList (Psd.children psdFile))).
  { exact (forEach_flattensInOrder (collectLayerInfo (callDepth host))
             (Psd.children psdFile)
             (fun c => proj1 (walk_flattensInOrder (callDepth host) c))
             Hr Hl [] recs Hw). }
  subst recs. cbn. now rewrite map_map.
Qed.

Lemma panel_lists_nodes_in_preorder_witness :
  firstFailure (sampleHost true (Ok (onePixel groupOfTwo))) sampleFile = None
  /\ infoPanel (render sampleArrays
                  (fst (analyzePsd (sampleHost true (Ok (onePixel groupOfTwo)))
                                   (Some sampleFile) previousState emptyLog))) =
     Some {| summary := ["幅: 1px"; "高さ: 1px"; "カラーモード: 3"];
             layerLines :=
               [ "📁 g";
                 "🖼️ a (10x20, 位置: X:-4px Y:10px, 不透明度: 255%, 表示: 表示, ブレンドモード: norm, クリッピング: なし)";
                 "🖼️ b (30x40, 位置: X:-4px Y:10px, 不透明度: 255%, 表示: 表示, ブレンドモード: norm, クリッピング: なし)" ] |}.
Proof.
  split; [reflexivity|].
  exact (eq_trans
           (panel_lists_nodes_in_preorder (sampleHost true (Ok (onePixel groupOfTwo)))
              sampleFile previousState emptyLog sampleArrays _ (onePixel groupOfTwo)
              eq_refl eq_refl eq_refl eq_refl eq_refl)
           eq_refl).
Defined.

Lemma truthy_nonempty (s : string) : s <> "" -> truthy (VString s) = true.
Proof.
  intros H. simpl. apply negb_true_iff, String.eqb_neq. exact H.
Qed.

(** X11: when the walk throws after the composite was drawn, the page
    shows the image of the new file with the width and height of the
    summary that was there before the run (0 by 0 when there was none),
    beside the unchanged info panel. *)
Theorem late_failure_shows_new_image_with_old_size
        (host : Host) (f : File) (st : State) (log : Log) (a : arrays)
        (bytes : list Byte.byte) (psdFile : Psd.t) (canvas : Canvas.t) (e : exn) :
  arrayBuffer f = Ok bytes ->
  parse host bytes = Ok psdFile ->
  drawComposite host psdFile = Ok canvas ->
  flatten (callDepth host) (Psd.children psdFile) = Throw e ->
  toDataURL host canvas <> "" ->
  let st' := fst (analyzePsd host (Some f) st log) in
  preview (render a st') =
    Some {| Image.src := toDataURL host canvas;
            Image.alt := "PSD preview";
            Image.width := match psdInfo st with
                           | Some info => PsdFileInfo.width info
                           | None => 0
                           end;
            Image.height := match psdInfo st with
                            | Some info => PsdFileInfo.height info
                            | None => 0
                            end |}
  /\ infoPanel (render a st') = infoPanel (render a st).
Proof.
  intros Hf Hp Hd Hw Hurl. cbv zeta.
  rewrite (analyzePsd_walk_throws host f st log bytes psdFile canvas e Hf Hp Hd Hw).
  cbn [fst]. unfold render. cbn [psdInfo imagePreview preview infoPanel].
  rewrite (truthy_nonempty _ Hurl). split; [|reflexivity].
  destruct (psdInfo st) as [info|]; cbn [fmap option_fmap option_map];
    [now rewrite !orZero_Some | reflexivity].
Qed.

Lemma late_failure_shows_new_image_with_old_size_witness :
  flatten 2500 (Psd.children (onePixel [Nullish])) = Throw nullNodeError
  /\ preview (render sampleArrays
                (fst (analyzePsd (sampleHost true (Ok (onePixel [Nullish])))
                                 (Some sampleFile) previousState emptyLog))) =
     Some {| Image.src := "data:1x1,drawn"; Image.alt := "PSD preview";
             Image.width := 8; Image.height := 8 |}.
Proof.
  split; [reflexivity|].
  exact (proj1 (late_failure_shows_new_image_with_old_size
                  (sampleHost true (Ok (onePixel [Nullish]))) sampleFile previousState
                  emptyLog sampleArrays _ (onePixel [Nullish]) _ nullNodeError
                  eq_refl eq_refl eq_refl eq_refl
                  (fun H : "data:1x1,drawn" = "" => eq_ind "data:1x1,drawn"
                     (fun s => match s with "" => False | _ => True end) I "" H))).
Defined.

Lemma append_empty_r (s : string) : s +:+ "" = s.
Proof.
  induction s as [|c s IH]; [reflexivity|].
  change (String c (s +:+ "") = String c s). now rewrite IH.
Qed.

(** X12: every line of the layer list shown for a flattened tree is
    either the folder marker and the name, for a record of type
    ['Group'], or the picture marker, the name and the parenthesised
    details, for a record of type ['Layer']; the bare picture marker that
    the JSX would give a record of another type never appears. *)
Theorem flattened_lines_are_group_or_leaf_lines
        (a : arrays) (depth : nat) (roots : list node) (recs : list Layer.t) :
  flatten depth roots = Ok recs ->
  Forall (fun r =>
            Layer.type r = "Group"
            /\ layerText a r = "📁" +:+ " " +:+ Layer.name r
            \/ Layer.type r = "Layer"
               /\ layerText a r =
                  "🖼️" +:+ " " +:+ Layer.name r
                  +:+ spanHead r +:+ spanSuffixes a r +:+ ")") recs.
Proof.
  intros Hrun. apply (flatten_keeps _ depth roots recs); [| |exact Hrun].
  - intros p Hp. right. apply String.eqb_eq in Hp.
    split; [exact Hp|]. unfold layerText. cbn [Layer.type layerRecord].
    now rewrite Hp.
  - intros p Hp. left. apply String.eqb_eq in Hp.
    split; [exact Hp|]. unfold layerText. cbn [Layer.type groupRecord].
    rewrite Hp. cbn. now rewrite append_empty_r.
Qed.

Lemma flattened_lines_are_group_or_leaf_lines_witness :
  flatten 0 aroundArtboard = Ok [layerRecord (leaf "a" 10 20); layerRecord (leaf "b" 30 40)]
  /\ Forall (fun r =>
               Layer.type r = "Group"
               /\ layerText sampleArrays r = "📁" +:+ " " +:+ Layer.name r
               \/ Layer.type r = "Layer"
                  /\ layerText sampleArrays r =
                     "🖼️" +:+ " " +:+ Layer.name r
                     +:+ spanHead r +:+ spanSuffixes sampleArrays r +:+ ")")
            [layerRecord (leaf "a" 10 20); layerRecord (leaf "b" 30 40)].
Proof.
  split; [reflexivity|].
  exact (flattened_lines_are_group_or_leaf_lines sampleArrays 0 aroundArtboard _ eq_refl).
Defined.

(** * Several selections in a row *)

Lemma analyzePsd_alerts (host : Host) (ev : option File) (st : State) (log : Log) :
  alerts (snd (analyzePsd host ev st log)) =
    alerts log ++ (if fails host ev then [failureMessage] else [])
  /\ length (console (snd (analyzePsd host ev st log))) =
     (length (console log) + (if fails host ev then 1 else 0))%nat.
Proof.
  destruct ev as [f|]; simpl fails.
  2:{ simpl. rewrite app_nil_r. split; [reflexivity | lia]. }
  rewrite analyzePsd_stages. unfold firstFailure.
  assert (Hc : forall e,
             alerts (catch e log) = alerts log ++ [failureMessage]
             /\ length (console (catch e log)) = (length (console log) + 1)%nat).
  { intros e. simpl. split; [reflexivity|]. now rewrite length_app. }
  assert (Hn : alerts log = alerts log ++ []
               /\ length (console log) = (length (console log) + 0)%nat).
  { rewrite app_nil_r. split; [reflexivity | lia]. }
  destruct (arrayBuffer f) as [bytes|e]; [|apply Hc].
  destruct (parse host bytes) as [psdFile|e]; [|apply Hc].
  destruct (Psd.composite psdFile) as [buf|e]; [|apply Hc].
  destruct (imageDataError host buf _ _) as [e|]; [apply Hc|].
  destruct (flatten (callDepth host) (Psd.children psdFile)); [apply Hn | apply Hc].
Qed.

Lemma analyzePsd_info (host : Host) (ev : option File) (st : State) (log : Log) :
  psdInfo (fst (analyzePsd host ev st log)) =
  match summaryOf host ev with
  | Some info => Some info
  | None => psdInfo st
  end.
Proof.
  destruct ev as [f|]; [|reflexivity].
  rewrite analyzePsd_stages. unfold summaryOf, firstFailure, collectInfo.
  fold (flatten).
  destruct (arrayBuffer f) as [bytes|e]; [|reflexivity].
  destruct (parse host bytes) as [psdFile|e]; [|reflexivity].
  destruct (Psd.composite psdFile) as [buf|e]; [|reflexivity].
  destruct (imageDataError host buf _ _) as [e|]; [reflexivity|].
  unfold flatten.
  destruct (forEach (collectLayerInfo (callDepth host)) (Psd.children psdFile) []);
    reflexivity.
Qed.

Lemma analyzePsd_preview (host : Host) (ev : option File) (st : State) (log : Log) :
  let st' := fst (analyzePsd host ev st log) in
  imagePreview st' = imagePreview st /\ psdInfo st' = psdInfo st
  \/ exists canvas, imagePreview st' = toDataURL host canvas.
Proof.
  destruct ev as [f|]; [|left; split; reflexivity].
  cbv zeta. rewrite analyzePsd_stages.
  destruct (arrayBuffer f) as [bytes|e]; [|left; split; reflexivity].
  destruct (parse host bytes) as [psdFile|e]; [|left; split; reflexivity].
  destruct (Psd.composite psdFile) as [buf|e]; [|left; split; reflexivity].
  destruct (imageDataError host buf _ _) as [e|]; [left; split; reflexivity|].
  right. exists (compositeCanvas host psdFile buf).
  destruct (flatten (callDepth host) (Psd.children psdFile)); reflexivity.
Qed.

(** X13: over any sequence of selections, the alerts shown are the ones
    that were there followed by one copy of the fixed message per
    selection whose analysis threw, and the console grows by as many
    entries; cancelled dialogs and successful analyses add nothing. *)
Theorem session_alerts_count_failures
        (host : Host) (events : list (option File)) (st : State) (log : Log) :
  alerts (snd (session host events st log)) =
    alerts log ++ repeat failureMessage (length (List.filter (fails host) events))
  /\ length (console (snd (session host events st log))) =
     (length (console log) + length (List.filter (fails host) events))%nat.
Proof.
  revert st log. induction events as [|ev rest IH]; intros st log.
  - simpl. rewrite app_nil_r. split; [reflexivity | lia].
  - destruct (analyzePsd_alerts host ev st log) as [Ha Hc].
    cbn [session List.filter].
    destruct (analyzePsd host ev st log) as [st1 log1]. cbn [snd] in Ha, Hc.
    destruct (IH st1 log1) as [IHa IHc]. rewrite IHa, IHc, Ha, Hc.
    destruct (fails host ev); cbn [length repeat].
    + rewrite <- app_assoc. split; [reflexivity | lia].
    + rewrite app_nil_r. split; [reflexivity | lia].
Qed.

(** X14: over any sequence of selections, the summary slot holds the
    summary of the last selection whose analysis ran to the end, and
    what it held at the start when there was none: a failed analysis or
    a cancelled dialog neither changes nor clears it. *)
Theorem session_info_is_last_success
        (host : Host) (events : list (option File)) (st : State) (log : Log) :
  psdInfo (fst (session host events st log)) = lastSummary host events (psdInfo st).
Proof.
  revert st log. induction events as [|ev rest IH]; intros st log; [reflexivity|].
  pose proof (analyzePsd_info host ev st log) as Hi.
  cbn [session]. unfold lastSummary. cbn [fold_left].
  destruct (analyzePsd host ev st log) as [st1 log1]. cbn [fst] in Hi.
  rewrite (IH st1 log1), Hi. reflexivity.
Qed.

(** X15: in a browser whose data URLs are never empty, the info panel is
    never shown without the preview image: if that holds of the state at
    the start (as it does of the initial state), it holds after any
    sequence of selections, failed ones included. *)
Theorem session_keeps_panel_with_preview
        (host : Host) (events : list (option File)) (st : State) (log : Log) :
  (forall canvas, toDataURL host canvas <> "") ->
  panelImpliesPreview st ->
  panelImpliesPreview (fst (session host events st log)).
Proof.
  intros Hurl. revert st log.
  induction events as [|ev rest IH]; intros st log Hst; [exact Hst|].
  pose proof (analyzePsd_preview host ev st log) as Hp. cbv zeta in Hp.
  cbn [session].
  destruct (analyzePsd host ev st log) as [st1 log1]. cbn [fst] in Hp.
  apply IH. unfold panelImpliesPreview in *.
  destruct Hp as [[Hp Hi]|[canvas Hp]]; rewrite Hp.
  - rewrite Hi. exact Hst.
  - intros _. apply Hurl.
Qed.

Lemma session_keeps_panel_with_preview_witness :
  psdInfo (fst (session (sampleHost true (Ok (onePixel groupOfTwo))) sampleEvents
                        initialState emptyLog)) <> None
  /\ panelImpliesPreview
       (fst (session (sampleHost true (Ok (onePixel groupOfTwo))) sampleEvents
                     initialState emptyLog)).
Proof.
  split; [discriminate|].
  apply (session_keeps_panel_with_preview (sampleHost true (Ok (onePixel groupOfTwo)))
           sampleEvents initialState emptyLog).
  - intros canvas. discriminate.
  - intros H. exfalso. apply H. reflexivity.
Defined.

Example session_sample :
  session (sampleHost true (Ok (onePixel groupOfTwo))) sampleEvents initialState emptyLog
  = ({| psdInfo :=
          Some {| PsdFileInfo.width := 1; PsdFileInfo.height := 1;
                  PsdFileInfo.colorMode := "3";
                  PsdFileInfo.layers :=
                    [groupRecord (group "g"); layerRecord (leaf "a" 10 20);
                     layerRecord (leaf "b" 30 40)] |};
        imagePreview := "data:1x1,drawn" |},
     {| console :=
          [("PSDファイルの解析中にエラーが発生しました:", ExternalError "NotReadableError");
           ("PSDファイルの解析中にエラーが発生しました:", ExternalError "NotReadableError")];
        alerts := [failureMessage; failureMessage] |}).
Proof. vm_compute. reflexivity. Qed.
